(** * purple_to_prom: the sensor-metric lifecycle of [purple_to_prom.py]

    A shallow embedding of [clear_metrics], [check_sensor] and [poll]:
    decoded JSON values, Python floats as binary64 primitive floats, the six
    module-level gauges as finite maps from label values to floats, and the
    control flow (exceptions, try/except, break) in a state-and-exception
    monad over the gauges and the log of HTTP requests. *)

From Stdlib Require Import ZArith Floats String Ascii DecimalString.
From stdpp Require Import gmap strings list fin_maps.

Set Warnings "-inexact-float,-register-all".
Local Open Scope string_scope.

(** ** Python values *)

(** What [resp.json()] and [json.loads] return.  A decoded object is an
    association list; a lookup takes the first binding of a key. *)
Inductive json : Type :=
| JNull
| JBool (b : bool)
| JInt (z : Z)
| JFloat (f : float)
| JStr (s : string)
| JList (l : list json)
| JDict (d : list (string * json)).

(** The exception classes the program can meet.  [Exception] is the class
    raised at line 86; [RequestException] and [ConverterError] stand for
    whatever the transport and the index converter raise. *)
Inductive exn : Type :=
| Exception
| TypeError
| ValueError
| KeyError
| AttributeError
| OverflowError
| RequestException
| ConverterError.

Inductive outcome (A : Type) : Type :=
| Ok (a : A)
| Raise (e : exn).
Arguments Ok {A} a.
Arguments Raise {A} e.

(** [bool(x)], the test of [if x:]. *)
Definition truthy (x : json) : bool :=
  match x with
  | JNull => false
  | JBool b => b
  | JInt z => negb (z =? 0)%Z
  | JFloat f => negb (PrimFloat.eqb f 0%float)
  | JStr s => negb (String.eqb s "")
  | JList l => match l with [] => false | _ => true end
  | JDict d => match d with [] => false | _ => true end
  end.

Fixpoint assoc (k : string) (d : list (string * json)) : option json :=
  match d with
  | [] => None
  | (k', v) :: d' => if String.eqb k k' then Some v else assoc k d'
  end.

(** [d.get(k)] on a dict: [None] (here [JNull]) for a missing key. *)
Definition dict_get (d : list (string * json)) (k : string) : json :=
  match assoc k d with
  | Some v => v
  | None => JNull
  end.

(** [x.get(k)]: only a dict has the method. *)
Definition py_get (x : json) (k : string) : outcome json :=
  match x with
  | JDict d => Ok (dict_get d k)
  | _ => Raise AttributeError
  end.

(** [for item in x]: a list yields its elements, a dict its keys, a string
    its characters; the other values are not iterable. *)
Definition py_iter (x : json) : outcome (list json) :=
  match x with
  | JList l => Ok l
  | JDict d => Ok (map (λ kv, JStr (fst kv)) d)
  | JStr s => Ok (map (λ c, JStr (String c EmptyString)) (list_ascii_of_string s))
  | _ => Raise TypeError
  end.

(** [float(z)] for a Python int: nearest binary64, [OverflowError] beyond
    the range. *)
Definition float_of_int (z : Z) : outcome float :=
  let f := SF2Prim (SpecFloat.binary_normalize FloatOps.prec FloatOps.emax z 0 false) in
  if PrimFloat.is_infinity f then Raise OverflowError else Ok f.

(** [max(x, 0)] with [x] a float: the first argument unless [0 > x], and
    then the int [0]. *)
Definition py_max0 (x : float) : json :=
  if PrimFloat.ltb x 0%float then JInt 0 else JFloat x.

(** ** The gauges *)

(** The label values of a child: [(parent_sensor_id, sensor_id, sensor_name)],
    each passed through [str]. *)
Abbreviation labelvalues := (string * string * string)%type.
Abbreviation gauge := (gmap labelvalues float).

Record registry : Type := Registry {
  aqi_g : gauge;
  aqi_AQandU_g : gauge;
  aqi_LRAPA_g : gauge;
  temp_g : gauge;
  humidity_g : gauge;
  pressure_g : gauge
}.

Inductive metric : Type :=
| Aqi | AqiAQandU | AqiLRAPA | Temp | Humidity | Pressure.

#[global] Instance metric_eq_dec : EqDecision metric.
Proof. solve_decision. Defined.

Definition gauge_of (m : metric) (r : registry) : gauge :=
  match m with
  | Aqi => aqi_g r
  | AqiAQandU => aqi_AQandU_g r
  | AqiLRAPA => aqi_LRAPA_g r
  | Temp => temp_g r
  | Humidity => humidity_g r
  | Pressure => pressure_g r
  end.

Definition update_gauge (m : metric) (f : gauge → gauge) (r : registry) : registry :=
  match m with
  | Aqi => Registry (f (aqi_g r)) (aqi_AQandU_g r) (aqi_LRAPA_g r) (temp_g r) (humidity_g r) (pressure_g r)
  | AqiAQandU => Registry (aqi_g r) (f (aqi_AQandU_g r)) (aqi_LRAPA_g r) (temp_g r) (humidity_g r) (pressure_g r)
  | AqiLRAPA => Registry (aqi_g r) (aqi_AQandU_g r) (f (aqi_LRAPA_g r)) (temp_g r) (humidity_g r) (pressure_g r)
  | Temp => Registry (aqi_g r) (aqi_AQandU_g r) (aqi_LRAPA_g r) (f (temp_g r)) (humidity_g r) (pressure_g r)
  | Humidity => Registry (aqi_g r) (aqi_AQandU_g r) (aqi_LRAPA_g r) (temp_g r) (f (humidity_g r)) (pressure_g r)
  | Pressure => Registry (aqi_g r) (aqi_AQandU_g r) (aqi_LRAPA_g r) (temp_g r) (humidity_g r) (f (pressure_g r))
  end.

Definition empty_registry : registry := Registry ∅ ∅ ∅ ∅ ∅ ∅.

(** The program's state: the gauges and the requests sent so far, each as
    (url, X-API-Key header). *)
Record world : Type := World {
  metrics : registry;
  sent : list (string * string)
}.

(** ** State and exceptions *)

Definition M (A : Type) : Type := world → outcome A * world.

#[global] Instance M_ret : MRet M := λ A a w, (Ok a, w).

#[global] Instance M_bind : MBind M := λ A B f c w,
  match c w with
  | (Ok a, w') => f a w'
  | (Raise e, w') => (Raise e, w')
  end.

Definition raise {A : Type} (e : exn) : M A := λ w, (Raise e, w).

Definition lift {A : Type} (o : outcome A) : M A := λ w, (o, w).

(** [try: c  except <classes in catches>: h], the handler receiving the
    exception. *)
Definition try_except {A : Type} (catches : exn → bool) (c : M A) (h : exn → M A) : M A :=
  λ w, match c w with
       | (Ok a, w') => (Ok a, w')
       | (Raise e, w') => if catches e then h e w' else (Raise e, w')
       end.

(** [except Exception] catches every class above. *)
Definition is_Exception (e : exn) : bool := true.

Definition is_ValueError (e : exn) : bool :=
  match e with ValueError => true | _ => false end.

Definition is_KeyError (e : exn) : bool :=
  match e with KeyError => true | _ => false end.

Fixpoint for_each {A : Type} (l : list A) (body : A → M unit) : M unit :=
  match l with
  | [] => mret tt
  | x :: l' => body x;; for_each l' body
  end.

Definition modify_gauge (m : metric) (f : gauge → gauge) : M unit :=
  λ w, (Ok tt, World (update_gauge m f (metrics w)) (sent w)).

(** [g.labels(...)]: the child for these label values, created (a gauge
    child starts at 0) when there is none. *)
Definition gauge_labels (m : metric) (lv : labelvalues) : M unit :=
  modify_gauge m (λ g, match g !! lv with Some _ => g | None => <[lv := 0%float]> g end).

(** [child.set(v)]. *)
Definition gauge_set (m : metric) (lv : labelvalues) (v : float) : M unit :=
  modify_gauge m (<[lv := v]>).

(** [g.remove(...)]: deletes the child; [KeyError] when there is none, the
    case the handler at line 156 is written for. *)
Definition gauge_remove (m : metric) (lv : labelvalues) : M unit :=
  λ w, match gauge_of m (metrics w) !! lv with
       | Some _ => modify_gauge m (delete lv) w
       | None => (Raise KeyError, w)
       end.

(** ** What the program takes from outside *)

Record response : Type := Response {
  status_code : Z;
  json_body : option json   (* resp.json(); None when it raises ValueError *)
}.

Record Env : Type := {
  (** [str(x)] on a decoded value *)
  py_str : json → string;
  (** [float(s)] on a string; [None] for [ValueError] *)
  float_of_text : string → option float;
  (** [json.loads(s)] on a string; [None] for a decoding error *)
  json_loads : string → option json;
  (** [aqi.to_iaqi(aqi.POLLUTANT_PM25, s, algo=aqi.ALGO_EPA)], as the number
      the gauge stores; [None] when the converter raises *)
  to_iaqi : string → option float;
  (** [requests.get(url, headers={"X-API-Key": key})]; [None] when the
      transport raises *)
  requests_get : string → string → option response
}.

Section Program.
Variable E : Env.

(** [float(x)] *)
Definition py_float (x : json) : outcome float :=
  match x with
  | JFloat f => Ok f
  | JInt z => float_of_int z
  | JBool b => Ok (if b then 1%float else 0%float)
  | JStr s => match float_of_text E s with Some f => Ok f | None => Raise ValueError end
  | _ => Raise TypeError
  end.

(** [json.loads(x)]: text only. *)
Definition py_json_loads (x : json) : outcome json :=
  match x with
  | JStr s => match json_loads E s with Some v => Ok v | None => Raise ValueError end
  | _ => Raise TypeError
  end.

Definition py_to_iaqi (s : string) : outcome float :=
  match to_iaqi E s with Some v => Ok v | None => Raise ConverterError end.

Definition http_get (url key : string) : M response :=
  λ w, let w' := World (metrics w) (sent w ++ [(url, key)]) in
       match requests_get E url key with
       | Some r => (Ok r, w')
       | None => (Raise RequestException, w')
       end.

(** [g._lock()] at line 68: [_lock] is the gauge's lock object, not a
    method, so the call raises before the [with] block is entered. *)
Definition call_lock (g : metric) : M unit := raise TypeError.

(** Lines 62-69: for each gauge, take the lock and clear the children. *)
Definition clear_metrics : M unit :=
  for_each [Aqi; AqiAQandU; AqiLRAPA; Temp; Pressure; Humidity]
           (λ g, call_lock g;; modify_gauge g (λ _, ∅)).

(** Lines 105-130: the three indices from the 10-minute average. *)
Definition export_pm25 (lv : labelvalues) (pm25_10min_raw : json) : M unit :=
  if truthy pm25_10min_raw then
    x ← lift (py_float pm25_10min_raw);
    let pm25_10min := py_max0 x in
    i_aqi ← lift (py_to_iaqi (py_str E pm25_10min));
    gauge_labels Aqi lv;;
    gauge_set Aqi lv i_aqi;;
    f1 ← lift (py_float pm25_10min);
    let pm25_10min_AQandU := (0.778 * f1 + 2.65)%float in
    i_aqi_AQandU ← lift (py_to_iaqi (py_str E (JFloat pm25_10min_AQandU)));
    gauge_labels AqiAQandU lv;;
    gauge_set AqiAQandU lv i_aqi_AQandU;;
    f2 ← lift (py_float pm25_10min);
    let pm25_10min_LRAPA := py_max0 (0.5 * f2 - 0.66)%float in
    i_aqi_LRAPA ← lift (py_to_iaqi (py_str E pm25_10min_LRAPA));
    gauge_labels AqiLRAPA lv;;
    gauge_set AqiLRAPA lv i_aqi_LRAPA
  else mret tt.

(** [g.labels(...).set(float(x))] under [if x:]; the child is looked up
    before the argument is converted. *)
Definition export_reading (m : metric) (lv : labelvalues) (x : json) : M unit :=
  if truthy x then
    gauge_labels m lv;;
    v ← lift (py_float x);
    gauge_set m lv v
  else mret tt.

(** Lines 102-146: the body of the [try]. *)
Definition try_body (lv : labelvalues) (stats temp_f humidity pressure : json) : M unit :=
  if truthy stats then
    stats' ← lift (py_json_loads stats);
    pm25_10min_raw ← lift (py_get stats' "pm2.5_10minute");
    export_pm25 lv pm25_10min_raw;;
    export_reading Temp lv temp_f;;
    export_reading Pressure lv pressure;;
    export_reading Humidity lv humidity
  else mret tt.

(** Lines 148-158: the six removals under one [try], [KeyError] ignored. *)
Definition remove_identity (lv : labelvalues) : M unit :=
  try_except is_KeyError
    (gauge_remove Aqi lv;;
     gauge_remove AqiAQandU lv;;
     gauge_remove AqiLRAPA lv;;
     gauge_remove Temp lv;;
     gauge_remove Pressure lv;;
     gauge_remove Humidity lv)
    (λ _, mret tt).

(** The label values the gauges are addressed with for one record. *)
Definition sensor_labels (parent_sensor_id : string) (sensor_id name : json) : labelvalues :=
  (parent_sensor_id, py_str E sensor_id, py_str E name).

(** Lines 95-159: one iteration of the loop over the records. *)
Definition sensor_body (parent_sensor_id : string) (sensor : json) : M unit :=
  sensor_id ← lift (py_get sensor "sensor_index");
  name ← lift (py_get sensor "name");
  stats ← lift (py_get sensor "stats");
  temp_f ← lift (py_get sensor "temperature");
  humidity ← lift (py_get sensor "humidity");
  pressure ← lift (py_get sensor "pressure");
  let lv := sensor_labels parent_sensor_id sensor_id name in
  try_except is_Exception
    (try_body lv stats temp_f humidity pressure)
    (λ e, remove_identity lv;; raise e).

Definition sensor_url (parent_sensor_id : string) (private_sensor_key : option string) : string :=
  match private_sensor_key with
  | Some k => "https://api.purpleair.com/v1/sensors/" ++ parent_sensor_id ++ "?read_key=" ++ k
  | None => "https://api.purpleair.com/v1/sensors/" ++ parent_sensor_id
  end.

(** Lines 72-159. *)
Definition check_sensor (read_api_key parent_sensor_id : string)
    (private_sensor_key : option string) : M unit :=
  resp ← http_get (sensor_url parent_sensor_id private_sensor_key) read_api_key;
  if ((status_code resp <? 200) || (299 <? status_code resp))%Z then
    clear_metrics;; raise Exception
  else
    resp_json ← try_except is_ValueError
      (lift (match json_body resp with Some v => Ok v | None => Raise ValueError end))
      (λ e, clear_metrics;; raise e);
    sensors ← lift (py_get resp_json "sensor");
    records ← lift (py_iter sensors);
    for_each records (sensor_body parent_sensor_id).

(** A call of [check_sensor] with positional arguments only: the first two
    parameters have no default, so fewer than two arguments is a
    [TypeError] raised before the body runs. *)
Definition call_check_sensor (args : list string) : M unit :=
  match args with
  | [a1; a2] => check_sensor a1 a2 None
  | [a1; a2; a3] => check_sensor a1 a2 (Some a3)
  | _ => raise TypeError
  end.

(** Lines 165-171: the loop over the configured ids, left at the first
    exception of its body. *)
Fixpoint for_sensor_ids (body : string → M unit) (sensor_ids : list string) (w : world) : world :=
  match sensor_ids with
  | [] => w
  | sensor_id :: rest =>
      match body sensor_id w with
      | (Ok _, w') => for_sensor_ids body rest w'
      | (Raise _, w') => w'
      end
  end.

(** One round of [poll]'s [while True] (lines 164-171; the sleep is not
    modelled). *)
Definition poll_tick (sensor_ids : list string) : world → world :=
  for_sensor_ids (λ sensor_id, call_check_sensor [sensor_id]) sensor_ids.

End Program.

(** ** A concrete environment

    A small world to run the program in: a few decimal texts with the
    floats they denote, an index converter that reads the concentration
    back (so that different concentrations give different indices), a
    decoder that knows a handful of blobs, and a remote service answering
    four parent sensor ids. *)

Definition dq : string := String "034"%char EmptyString.

Definition demo_float_texts : list (string * float) :=
  [("12.0", 12.0%float); ("11.986", 11.986%float); ("11.94", 11.94%float);
   ("5.34", 5.34%float); ("72.5", 72.5%float); ("0.0", 0.0%float);
   ("2.65", 2.65%float)].

Fixpoint text_to_float (t : list (string * float)) (s : string) : option float :=
  match t with
  | [] => None
  | (s', f) :: t' => if String.eqb s s' then Some f else text_to_float t' s
  end.

Fixpoint float_to_text (t : list (string * float)) (f : float) : string :=
  match t with
  | [] => "nan"
  | (s, f') :: t' => if PrimFloat.eqb f f' then s else float_to_text t' f
  end.

Definition demo_py_str (x : json) : string :=
  match x with
  | JStr s => s
  | JNull => "None"
  | JBool true => "True"
  | JBool false => "False"
  | JInt z => NilZero.string_of_int (Z.to_int z)
  | JFloat f => float_to_text demo_float_texts f
  | JList _ => "[...]"
  | JDict _ => "{...}"
  end.

Definition blob_12 : string := "{" ++ dq ++ "pm2.5_10minute" ++ dq ++ ": 12.0}".
Definition blob_0 : string := "{" ++ dq ++ "pm2.5_10minute" ++ dq ++ ": 0.0}".
Definition blob_empty : string := "{}".

Definition demo_json_loads (s : string) : option json :=
  if String.eqb s blob_12 then Some (JDict [("pm2.5_10minute", JFloat 12.0)])
  else if String.eqb s blob_0 then Some (JDict [("pm2.5_10minute", JFloat 0.0)])
  else if String.eqb s blob_empty then Some (JDict [])
  else None.

Definition record_S : json :=
  JDict [("sensor_index", JInt 1001); ("name", JStr "porch");
         ("stats", JStr blob_12); ("temperature", JFloat 72.5);
         ("humidity", JInt 40); ("pressure", JInt 1013)].

Definition record_no_stats : json :=
  JDict [("sensor_index", JInt 1001); ("name", JStr "porch");
         ("temperature", JFloat 72.5); ("humidity", JInt 40);
         ("pressure", JInt 1013)].

Definition record_zeros : json :=
  JDict [("sensor_index", JInt 1001); ("name", JStr "porch");
         ("stats", JStr blob_0); ("temperature", JInt 0);
         ("humidity", JInt 0); ("pressure", JInt 0)].

Definition record_zero_pm : json :=
  JDict [("sensor_index", JInt 1001); ("name", JStr "porch");
         ("stats", JStr blob_0); ("temperature", JFloat 72.5)].

Definition record_bad_stats : json :=
  JDict [("sensor_index", JInt 1001); ("name", JStr "porch");
         ("stats", JStr "not json"); ("temperature", JFloat 72.5)].

Definition record_object_stats : json :=
  JDict [("sensor_index", JInt 1001); ("name", JStr "porch");
         ("stats", JDict [("pm2.5_10minute", JFloat 12.0)]);
         ("temperature", JFloat 72.5)].

Definition record_empty_object_stats : json :=
  JDict [("sensor_index", JInt 1001); ("name", JStr "porch");
         ("stats", JDict []); ("temperature", JFloat 72.5)].

Definition record_other : json :=
  JDict [("sensor_index", JInt 1002); ("name", JStr "yard");
         ("stats", JStr blob_12); ("temperature", JFloat 72.5)].

Definition demo_requests_get (url key : string) : option response :=
  if String.eqb url "https://api.purpleair.com/v1/sensors/1001"
  then Some (Response 200 (Some (JDict [("sensor", JList [record_S])])))
  else if String.eqb url "https://api.purpleair.com/v1/sensors/2002"
  then Some (Response 200 (Some (JDict [("sensor", JList [record_other; record_bad_stats; record_S])])))
  else if String.eqb url "https://api.purpleair.com/v1/sensors/5005"
  then Some (Response 500 None)
  else if String.eqb url "https://api.purpleair.com/v1/sensors/6006"
  then Some (Response 200 None)
  else None.

Definition demo : Env := {|
  py_str := demo_py_str;
  float_of_text := text_to_float demo_float_texts;
  json_loads := demo_json_loads;
  to_iaqi := text_to_float demo_float_texts;
  requests_get := demo_requests_get
|}.

Definition world0 : world := World empty_registry [].

Definition lv_S : labelvalues := ("1001", "1001", "porch").

(** The gauges with a temperature for [lv_S] and nothing else. *)
Definition world_temp_only : world :=
  World (Registry ∅ ∅ ∅ (<[lv_S := 72.5%float]> ∅) ∅ ∅) [].

(** The gauges with all six entries for the "porch" record under parent
    "2002". *)
Definition lv_porch : labelvalues := ("2002", "1001", "porch").

Definition world_porch : world :=
  let g : gauge := <[lv_porch := 1.0%float]> ∅ in
  World (Registry g g g g g g) [].

(** The gauges with a temperature for the "porch" record under parent
    "2002" and nothing else. *)
Definition world_porch_temp : world :=
  World (Registry ∅ ∅ ∅ (<[lv_porch := 72.5%float]> ∅) ∅ ∅) [].

(** ** An EPA-shaped converter

    The concentration is read from its decimal text and cut to one decimal;
    the index is interpolated between the PM2.5 breakpoints, in tenths, and
    rounded half to even.  A text that is not a plain decimal, or a
    concentration beyond the table, has no index. *)

Definition digit_of (c : ascii) : option Z :=
  let n := Z.of_nat (nat_of_ascii c) in
  if ((48 <=? n) && (n <=? 57))%Z then Some (n - 48)%Z else None.

Fixpoint tenths_of (s : string) (acc : Z) : option Z :=
  match s with
  | EmptyString => Some (acc * 10)%Z
  | String c s' =>
      if Ascii.eqb c "."%char then
        match s' with
        | EmptyString => Some (acc * 10)%Z
        | String c' _ =>
            match digit_of c' with
            | Some k => Some (acc * 10 + k)%Z
            | None => None
            end
        end
      else
        match digit_of c with
        | Some k => tenths_of s' (acc * 10 + k)%Z
        | None => None
        end
  end.

Definition round_half_even (p q : Z) : Z :=
  let f := (p / q)%Z in
  let r := (p mod q)%Z in
  if (2 * r <? q)%Z then f
  else if (q <? 2 * r)%Z then (f + 1)%Z
  else if Z.even f then f else (f + 1)%Z.

(** (low, high) concentration in tenths, (low, high) index. *)
Definition epa_pm25_table : list (Z * Z * Z * Z) :=
  [(0, 120, 0, 50); (121, 354, 51, 100); (355, 554, 101, 150);
   (555, 1504, 151, 200); (1505, 2504, 201, 300); (2505, 3504, 301, 400);
   (3505, 5004, 401, 500)]%Z.

Fixpoint epa_index (table : list (Z * Z * Z * Z)) (t : Z) : option Z :=
  match table with
  | [] => None
  | (lo, hi, ilo, ihi) :: table' =>
      if ((lo <=? t) && (t <=? hi))%Z
      then Some (round_half_even (ilo * (hi - lo) + (ihi - ilo) * (t - lo)) (hi - lo))
      else epa_index table' t
  end.

Definition epa_to_iaqi (s : string) : option float :=
  match s with
  | EmptyString => None
  | _ =>
      match tenths_of s 0 with
      | Some t =>
          match epa_index epa_pm25_table t with
          | Some i => Some (SF2Prim (SpecFloat.binary_normalize FloatOps.prec FloatOps.emax i 0 false))
          | None => None
          end
      | None => None
      end
  end.

Definition epa : Env := {|
  py_str := demo_py_str;
  float_of_text := text_to_float demo_float_texts;
  json_loads := demo_json_loads;
  to_iaqi := epa_to_iaqi;
  requests_get := demo_requests_get
|}.

(** ** Vocabulary of the statements *)

(** [keeps P c]: running [c] sends no request and leaves every gauge entry
    selected by [P] as it was, whether [c] returns or raises. *)
Definition keeps {A} (P : metric → labelvalues → Prop) (c : M A) : Prop :=
  ∀ w, sent (c w).2 = sent w ∧
       ∀ m lv, P m lv → gauge_of m (metrics (c w).2) !! lv = gauge_of m (metrics w) !! lv.

(** [c] raises [KeyError] or nothing. *)
Definition only_KeyError {A} (c : M A) : Prop :=
  ∀ w e w', c w = (Raise e, w') → e = KeyError.

(** A reading that is the number zero. *)
Definition zero_reading (x : json) : Prop := x = JInt 0 ∨ x = JFloat 0%float.

(** What a run from [w] to [w'] did to the gauge [m] of one of the three
    readings: set from the raw value [x] when [x] is true as a condition; as
    before when the field is absent. *)
Definition reading_exported (E : Env) (m : metric) (x : json) (lv : labelvalues)
    (w w' : world) : Prop :=
  (truthy x = true →
     ∃ v, py_float E x = Ok v ∧ gauge_of m (metrics w') !! lv = Some v) ∧
  (x = JNull → gauge_of m (metrics w') !! lv = gauge_of m (metrics w) !! lv).

(** ** A second environment

    More of the remote service and of the decoder: responses whose body is
    not of the expected shape, a blob that decodes to a list and one with a
    negative average, and a converter that also knows the text of the int
    [0]. *)

Definition blob_list : string := "[1]".
Definition blob_negative : string := "{" ++ dq ++ "pm2.5_10minute" ++ dq ++ ": -3.0}".

Definition wide_json_loads (s : string) : option json :=
  if String.eqb s blob_list then Some (JList [JInt 1])
  else if String.eqb s blob_negative then Some (JDict [("pm2.5_10minute", JFloat (-3.0))])
  else demo_json_loads s.

Definition wide_float_texts : list (string * float) :=
  ("0", 0.0%float) :: demo_float_texts.

Definition record_list_stats : json :=
  JDict [("sensor_index", JInt 1001); ("name", JStr "porch");
         ("stats", JStr blob_list); ("temperature", JFloat 72.5)].

Definition record_negative : json :=
  JDict [("sensor_index", JInt 1001); ("name", JStr "porch");
         ("stats", JStr blob_negative)].

Definition record_text_temp : json :=
  JDict [("sensor_index", JInt 1001); ("name", JStr "porch");
         ("stats", JStr blob_empty); ("temperature", JStr "warm")].

Definition record_12_text_temp : json :=
  JDict [("sensor_index", JInt 1001); ("name", JStr "porch");
         ("stats", JStr blob_12); ("temperature", JStr "warm")].

Definition wide_requests_get (url key : string) : option response :=
  if String.eqb url "https://api.purpleair.com/v1/sensors/3003"
  then Some (Response 200 (Some (JList [record_S])))
  else if String.eqb url "https://api.purpleair.com/v1/sensors/3004"
  then Some (Response 200 (Some (JDict [("error", JStr "none")])))
  else if String.eqb url "https://api.purpleair.com/v1/sensors/3005"
  then Some (Response 200 (Some (JDict [("sensor", record_S)])))
  else if String.eqb url "https://api.purpleair.com/v1/sensors/3006"
  then Some (Response 200 (Some (JDict [("sensor", JList [])])))
  else if String.eqb url "https://api.purpleair.com/v1/sensors/3007?read_key=PRIV"
  then Some (Response 200 (Some (JDict [("sensor", JList [record_S; JInt 5; record_other])])))
  else demo_requests_get url key.

Definition wide : Env := {|
  py_str := demo_py_str;
  float_of_text := text_to_float wide_float_texts;
  json_loads := wide_json_loads;
  to_iaqi := text_to_float wide_float_texts;
  requests_get := wide_requests_get
|}.

(** The order of the removals at lines 150-155. *)
Definition removal_order : list metric :=
  [Aqi; AqiAQandU; AqiLRAPA; Temp; Pressure; Humidity].

(** [c] creates and changes no gauge entry: each one is as before or gone. *)
Definition only_removes {A} (c : M A) : Prop :=
  ∀ w m lv,
    gauge_of m (metrics (c w).2) !! lv = None ∨
    gauge_of m (metrics (c w).2) !! lv = gauge_of m (metrics w) !! lv.

(** The state after the request of one call. *)
Definition after_request (parent : string) (priv : option string) (key : string)
    (w : world) : world :=
  World (metrics w) (sent w ++ [(sensor_url parent priv, key)]).

(** * Properties *)

(** ** Running the monad *)

Lemma bind_Ok {A B} (c : M A) (f : A → M B) w a w' :
  c w = (Ok a, w') → (c ≫= f) w = f a w'.
Proof. intros H. unfold mbind, M_bind. by rewrite H. Qed.

Lemma bind_Raise {A B} (c : M A) (f : A → M B) w e w' :
  c w = (Raise e, w') → (c ≫= f) w = (Raise e, w').
Proof. intros H. unfold mbind, M_bind. by rewrite H. Qed.

Lemma bind_inv_Ok {A B} (c : M A) (f : A → M B) w b w' :
  (c ≫= f) w = (Ok b, w') →
  ∃ a w1, c w = (Ok a, w1) ∧ f a w1 = (Ok b, w').
Proof.
  unfold mbind, M_bind. destruct (c w) as [[a|e] w1]; intros H.
  - by exists a, w1.
  - discriminate.
Qed.

Lemma lift_inv_Ok {A} (o : outcome A) w a w' :
  lift o w = (Ok a, w') → o = Ok a ∧ w' = w.
Proof. unfold lift. intros H. by inversion H. Qed.

Lemma try_except_Ok {A} p (c : M A) h w a w' :
  c w = (Ok a, w') → try_except p c h w = (Ok a, w').
Proof. intros H. unfold try_except. by rewrite H. Qed.

Lemma try_except_Raise {A} p (c : M A) h w e w' :
  c w = (Raise e, w') → p e = true → try_except p c h w = h e w'.
Proof. intros H Hp. unfold try_except. by rewrite H, Hp. Qed.

(** A handler that always raises: the block returned, so its body did. *)
Lemma try_except_inv_Ok {A} p (c : M A) h w a w' :
  (∀ e w1, (h e w1).1 ≠ Ok a) →
  (∀ e, p e = true) →
  try_except p c h w = (Ok a, w') → c w = (Ok a, w').
Proof.
  intros Hh Hp. unfold try_except. destruct (c w) as [[a0|e] w1]; first done.
  rewrite Hp. intros H. destruct (Hh e w1). by rewrite H.
Qed.

Lemma for_each_break {A} (pre post : list A) (x : A) (body : A → M unit) w w1 e w2 :
  for_each pre body w = (Ok tt, w1) →
  body x w1 = (Raise e, w2) →
  for_each (pre ++ x :: post) body w = (Raise e, w2).
Proof.
  revert w. induction pre as [|y pre IH]; intros w Hpre Hx; simpl in *.
  - inversion Hpre; subst. by apply bind_Raise.
  - apply bind_inv_Ok in Hpre as ([] & w0 & Hy & Hrest).
    erewrite bind_Ok by exact Hy. by apply IH.
Qed.

Lemma for_each_single_inv_Ok {A} (x : A) (body : A → M unit) w w' :
  for_each [x] body w = (Ok tt, w') → body x w = (Ok tt, w').
Proof.
  simpl. intros H. apply bind_inv_Ok in H as ([] & w1 & Hx & H).
  by inversion H; subst.
Qed.

(** ** The gauges *)

Lemma gauge_of_update_eq m f r :
  gauge_of m (update_gauge m f r) = f (gauge_of m r).
Proof. by destruct m. Qed.

Lemma gauge_of_update_ne m m' f r :
  m ≠ m' → gauge_of m' (update_gauge m f r) = gauge_of m' r.
Proof. by destruct m, m'. Qed.

Lemma modify_gauge_inv m f w o w' :
  modify_gauge m f w = (o, w') →
  o = Ok tt ∧ w' = World (update_gauge m f (metrics w)) (sent w).
Proof. unfold modify_gauge. intros H. by inversion H. Qed.

Lemma modify_gauge_other m m' f w o w' :
  m ≠ m' → modify_gauge m f w = (o, w') →
  gauge_of m' (metrics w') = gauge_of m' (metrics w).
Proof.
  intros Hne H. apply modify_gauge_inv in H as [_ ->]. simpl.
  by apply gauge_of_update_ne.
Qed.

Lemma labels_set_lookup m lv v w w1 w2 :
  gauge_labels m lv w = (Ok tt, w1) →
  gauge_set m lv v w1 = (Ok tt, w2) →
  gauge_of m (metrics w2) !! lv = Some v.
Proof.
  intros H1 H2. apply modify_gauge_inv in H2 as [_ ->]. simpl.
  rewrite gauge_of_update_eq. apply lookup_insert_eq.
Qed.

Lemma clear_metrics_raises w : clear_metrics w = (Raise TypeError, w).
Proof. reflexivity. Qed.

(** ** What an operation leaves alone *)

Lemma keeps_ret {A} P (a : A) : keeps P (mret a).
Proof. by intros w. Qed.

Lemma keeps_raise {A} P e : keeps P (raise (A:=A) e).
Proof. by intros w. Qed.

Lemma keeps_lift {A} P (o : outcome A) : keeps P (lift o).
Proof. by intros w. Qed.

Lemma keeps_bind {A B} P (c : M A) (f : A → M B) :
  keeps P c → (∀ a, keeps P (f a)) → keeps P (c ≫= f).
Proof.
  intros Hc Hf w. specialize (Hc w). unfold mbind, M_bind.
  destruct (c w) as [[a|e] w1]; simpl in *; last done.
  destruct Hc as [Hs Hg], (Hf a w1) as [Hs' Hg']. split.
  - by rewrite Hs'.
  - intros m lv HP. by rewrite Hg', Hg.
Qed.

Lemma keeps_try_except {A} P p (c : M A) h :
  keeps P c → (∀ e, keeps P (h e)) → keeps P (try_except p c h).
Proof.
  intros Hc Hh w. specialize (Hc w). unfold try_except.
  destruct (c w) as [[a|e] w1]; simpl in *; first done.
  destruct (p e); last done.
  destruct Hc as [Hs Hg], (Hh e w1) as [Hs' Hg']. split.
  - by rewrite Hs'.
  - intros m lv HP. by rewrite Hg', Hg.
Qed.

Lemma keeps_modify_gauge (P : metric → labelvalues → Prop) (m : metric)
    (f : gauge → gauge) :
  (∀ g lv, P m lv → f g !! lv = g !! lv) → keeps P (modify_gauge m f).
Proof.
  intros Hf w. split; first done. intros m' lv HP. simpl.
  destruct (decide (m = m')) as [<-|Hne].
  - rewrite gauge_of_update_eq. by apply Hf.
  - by rewrite gauge_of_update_ne.
Qed.

Lemma keeps_labels (P : metric → labelvalues → Prop) (m : metric) (lv0 : labelvalues) :
  ¬ P m lv0 → keeps P (gauge_labels m lv0).
Proof.
  intros HP. apply keeps_modify_gauge. intros g lv Hlv.
  destruct (g !! lv0); first done.
  apply lookup_insert_ne. by intros ->.
Qed.

Lemma keeps_set (P : metric → labelvalues → Prop) (m : metric) (lv0 : labelvalues)
    (v : float) :
  ¬ P m lv0 → keeps P (gauge_set m lv0 v).
Proof.
  intros HP. apply keeps_modify_gauge. intros g lv Hlv.
  apply lookup_insert_ne. by intros ->.
Qed.

Lemma keeps_remove (P : metric → labelvalues → Prop) (m : metric) (lv0 : labelvalues) :
  ¬ P m lv0 → keeps P (gauge_remove m lv0).
Proof.
  intros HP w. unfold gauge_remove.
  destruct (gauge_of m (metrics w) !! lv0); last done.
  apply keeps_modify_gauge. intros g lv Hlv.
  apply lookup_delete_ne. by intros ->.
Qed.

Lemma keeps_export_reading (E : Env) (P : metric → labelvalues → Prop) m lv0 x :
  ¬ P m lv0 → keeps P (export_reading E m lv0 x).
Proof.
  intros HP. unfold export_reading. destruct (truthy x); last apply keeps_ret.
  repeat (apply keeps_bind; [|intros ?]);
    auto using keeps_labels, keeps_set, keeps_lift.
Qed.

Lemma keeps_export_pm25 (E : Env) (P : metric → labelvalues → Prop) lv0 x :
  ¬ P Aqi lv0 → ¬ P AqiAQandU lv0 → ¬ P AqiLRAPA lv0 →
  keeps P (export_pm25 E lv0 x).
Proof.
  intros H1 H2 H3. unfold export_pm25. destruct (truthy x); last apply keeps_ret.
  repeat (apply keeps_bind; [|intros ?]);
    auto using keeps_labels, keeps_set, keeps_lift.
Qed.

Lemma keeps_try_body (E : Env) (P : metric → labelvalues → Prop) lv0 stats t h p :
  (∀ m, ¬ P m lv0) → keeps P (try_body E lv0 stats t h p).
Proof.
  intros HP. unfold try_body. destruct (truthy stats); last apply keeps_ret.
  repeat (apply keeps_bind; [|intros ?]);
    auto using keeps_export_pm25, keeps_export_reading, keeps_lift.
Qed.

Lemma keeps_remove_identity (P : metric → labelvalues → Prop) lv0 :
  (∀ m, ¬ P m lv0) → keeps P (remove_identity lv0).
Proof.
  intros HP. unfold remove_identity.
  apply keeps_try_except; last (intros _; apply keeps_ret).
  repeat (apply keeps_bind; [|intros ?]); auto using keeps_remove.
Qed.

(** What [keeps] says about a known run. *)
Lemma keeps_run {A} (P : metric → labelvalues → Prop) (c : M A) w o w' m lv :
  keeps P c → c w = (o, w') → P m lv →
  gauge_of m (metrics w') !! lv = gauge_of m (metrics w) !! lv.
Proof.
  intros Hk Hrun HP. destruct (Hk w) as [_ Hg]. rewrite Hrun in Hg. by apply Hg.
Qed.

Lemma export_reading_other (E : Env) m m' lv lv' x w o w' :
  m ≠ m' → export_reading E m lv x w = (o, w') →
  gauge_of m' (metrics w') !! lv' = gauge_of m' (metrics w) !! lv'.
Proof.
  intros Hne Hrun.
  eapply (keeps_run (λ m0 _, m0 = m')); [|done|done].
  apply keeps_export_reading. by intros ->.
Qed.

Lemma export_pm25_other (E : Env) m' lv lv' x w o w' :
  m' ≠ Aqi → m' ≠ AqiAQandU → m' ≠ AqiLRAPA →
  export_pm25 E lv x w = (o, w') →
  gauge_of m' (metrics w') !! lv' = gauge_of m' (metrics w) !! lv'.
Proof.
  intros H1 H2 H3 Hrun.
  eapply (keeps_run (λ m0 _, m0 = m')); [|done|done].
  apply keeps_export_pm25; by intros <-.
Qed.

(** ** The poll loop and the fetch *)

(** C1 -- The claim has the loop call the fetch with the read API key, the
    parent sensor id and its private key.  The loop of [poll] calls
    [check_sensor] with the sensor id alone, which binds it to
    [read_api_key] and leaves [parent_sensor_id] without a value: the call
    raises before the body runs, the loop is left at the first id, and a
    round sends no request and changes nothing, whatever the configured
    list. *)
Theorem poll_tick_sends_nothing (E : Env) (sensor_ids : list string) (w : world) :
  poll_tick E sensor_ids w = w.
Proof. by destruct sensor_ids. Qed.

Lemma for_sensor_ids_break (body : string → M unit) sensor_id rest w e w' :
  body sensor_id w = (Raise e, w') →
  for_sensor_ids body (sensor_id :: rest) w = w'.
Proof. intros H. simpl. by rewrite H. Qed.

Lemma status_ok_test (resp : response) :
  (200 ≤ status_code resp ≤ 299)%Z →
  ((status_code resp <? 200)%Z || (299 <? status_code resp)%Z) = false.
Proof. intros H. apply orb_false_iff. split; apply Z.ltb_ge; lia. Qed.

Lemma check_sensor_bad_status (E : Env) key parent priv w resp :
  requests_get E (sensor_url parent priv) key = Some resp →
  (status_code resp < 200 ∨ 299 < status_code resp)%Z →
  check_sensor E key parent priv w =
    (Raise TypeError, World (metrics w) (sent w ++ [(sensor_url parent priv, key)])).
Proof.
  intros Hget Hstatus. unfold check_sensor.
  erewrite bind_Ok; last by (unfold http_get; rewrite Hget).
  replace ((status_code resp <? 200)%Z || (299 <? status_code resp)%Z) with true; first done.
  symmetry. apply orb_true_iff. destruct Hstatus; [left|right]; by apply Z.ltb_lt.
Qed.

Lemma check_sensor_bad_body (E : Env) key parent priv w resp :
  requests_get E (sensor_url parent priv) key = Some resp →
  (200 ≤ status_code resp ≤ 299)%Z →
  json_body resp = None →
  check_sensor E key parent priv w =
    (Raise TypeError, World (metrics w) (sent w ++ [(sensor_url parent priv, key)])).
Proof.
  intros Hget Hstatus Hbody. unfold check_sensor.
  erewrite bind_Ok; last by (unfold http_get; rewrite Hget).
  rewrite (status_ok_test _ Hstatus), Hbody. reflexivity.
Qed.

(** C2 -- The claim has every entry of the six gauges removed when the fetch
    fails.  On a status outside 200..299, and on a body that [resp.json()]
    cannot decode, [check_sensor] does call [clear_metrics], but that call
    raises a type error at the lock of the first gauge: nothing is cleared,
    every gauge keeps what it exported, and the type error is the exception
    that leaves [check_sensor].  A round of the loop whose body makes this
    call for that sensor ends there, with this one request added: no later
    id of the list is processed. *)
Theorem fetch_failure_clears_nothing (E : Env) key parent priv w resp :
  requests_get E (sensor_url parent priv) key = Some resp →
  ((status_code resp < 200)%Z ∨ (299 < status_code resp)%Z ∨ json_body resp = None) →
  let w' := World (metrics w) (sent w ++ [(sensor_url parent priv, key)]) in
  check_sensor E key parent priv w = (Raise TypeError, w') ∧
  ∀ (body : string → M unit) (rest : list string),
    body parent w = check_sensor E key parent priv w →
    for_sensor_ids body (parent :: rest) w = w'.
Proof.
  intros Hget Hfail w'.
  assert (check_sensor E key parent priv w = (Raise TypeError, w')) as He.
  { destruct (decide (status_code resp < 200 ∨ 299 < status_code resp)%Z) as [Hs|Hs].
    - by eapply check_sensor_bad_status.
    - eapply check_sensor_bad_body; [done|lia|].
      destruct Hfail as [?|[?|?]]; [exfalso; lia|exfalso; lia|done]. }
  split; first done.
  intros body rest Hbody. eapply for_sensor_ids_break. by rewrite Hbody.
Qed.

Lemma fetch_failure_clears_nothing_witness :
  for_sensor_ids (λ s, check_sensor demo "KEY" s None) ["5005"; "1001"] world_temp_only
  = World (metrics world_temp_only) [("https://api.purpleair.com/v1/sensors/5005", "KEY")].
Proof.
  refine (proj2 (fetch_failure_clears_nothing demo "KEY" "5005" None world_temp_only
                   (Response 500 None) _ _) (λ s, check_sensor demo "KEY" s None) ["1001"] _).
  - reflexivity.
  - right; left. simpl. lia.
  - reflexivity.
Defined.

(** [check_sensor] once the fetch has succeeded with a body of the expected
    structure: the loop over the records, one request later. *)
Lemma check_sensor_fetched (E : Env) key parent priv w resp bd records :
  requests_get E (sensor_url parent priv) key = Some resp →
  (200 ≤ status_code resp ≤ 299)%Z →
  json_body resp = Some (JDict bd) →
  dict_get bd "sensor" = JList records →
  check_sensor E key parent priv w =
  for_each records (sensor_body E parent)
    (World (metrics w) (sent w ++ [(sensor_url parent priv, key)])).
Proof.
  intros Hget Hstatus Hbody Hsensor. unfold check_sensor.
  erewrite bind_Ok; last by (unfold http_get; rewrite Hget).
  rewrite (status_ok_test _ Hstatus), Hbody.
  erewrite bind_Ok; last reflexivity.
  erewrite bind_Ok; last reflexivity.
  rewrite Hsensor.
  erewrite bind_Ok; last reflexivity.
  reflexivity.
Qed.

(** ** One record *)

Lemma sensor_body_dict (E : Env) parent d w :
  sensor_body E parent (JDict d) w =
  let lv := sensor_labels E parent (dict_get d "sensor_index") (dict_get d "name") in
  try_except is_Exception
    (try_body E lv (dict_get d "stats") (dict_get d "temperature")
       (dict_get d "humidity") (dict_get d "pressure"))
    (λ e, remove_identity lv;; raise e) w.
Proof. reflexivity. Qed.

Lemma sensor_body_not_dict (E : Env) parent sensor w :
  (∀ d, sensor ≠ JDict d) →
  sensor_body E parent sensor w = (Raise AttributeError, w).
Proof. intros H. destruct sensor; try reflexivity. by destruct (H d). Qed.

Lemma truthy_JStr s : s ≠ "" → truthy (JStr s) = true.
Proof. intros H. simpl. apply negb_true_iff. by apply String.eqb_neq. Qed.

Lemma export_reading_falsy (E : Env) m lv x w :
  truthy x = false → export_reading E m lv x w = (Ok tt, w).
Proof. intros H. unfold export_reading. by rewrite H. Qed.

Lemma export_pm25_falsy (E : Env) lv x w :
  truthy x = false → export_pm25 E lv x w = (Ok tt, w).
Proof. intros H. unfold export_pm25. by rewrite H. Qed.

(** The [try] body once the blob has been decoded. *)
Lemma try_body_decoded (E : Env) lv blob stats' t h p w :
  blob ≠ "" →
  json_loads E blob = Some stats' →
  try_body E lv (JStr blob) t h p w =
  (pm25_10min_raw ← lift (py_get stats' "pm2.5_10minute");
   export_pm25 E lv pm25_10min_raw;;
   export_reading E Temp lv t;;
   export_reading E Pressure lv p;;
   export_reading E Humidity lv h) w.
Proof.
  intros Hblob Hloads. unfold try_body. rewrite (truthy_JStr _ Hblob).
  erewrite (bind_Ok (lift (py_json_loads E (JStr blob)))); first reflexivity.
  unfold lift, py_json_loads. by rewrite Hloads.
Qed.

(** C7 -- A record with no statistics blob is processed without an
    exception and leaves the whole registry as it was: nothing is set for
    the three PM2.5 indices and nothing that was set before is removed. *)
Theorem no_stats_leaves_registry (E : Env) parent d w :
  dict_get d "stats" = JNull →
  sensor_body E parent (JDict d) w = (Ok tt, w).
Proof.
  intros H. rewrite sensor_body_dict. cbv zeta.
  apply try_except_Ok. unfold try_body. by rewrite H.
Qed.

Lemma no_stats_leaves_registry_witness :
  sensor_body demo "1001" record_no_stats world_temp_only = (Ok tt, world_temp_only).
Proof.
  apply (no_stats_leaves_registry demo "1001"
           [("sensor_index", JInt 1001); ("name", JStr "porch");
            ("temperature", JFloat 72.5); ("humidity", JInt 40);
            ("pressure", JInt 1013)] world_temp_only).
  reflexivity.
Defined.

(** The same fact for use below. *)
Lemma sensor_body_no_stats (E : Env) parent d w w' :
  dict_get d "stats" = JNull →
  sensor_body E parent (JDict d) w = (Ok tt, w') → w' = w.
Proof.
  intros H. rewrite sensor_body_dict. cbv zeta.
  erewrite try_except_Ok; last by (unfold try_body; rewrite H).
  by inversion 1.
Qed.

(** ** The removal block *)

Lemma only_KeyError_remove m lv : only_KeyError (gauge_remove m lv).
Proof.
  intros w e w'. unfold gauge_remove, modify_gauge.
  destruct (gauge_of m (metrics w) !! lv); intros H; by inversion H.
Qed.

Lemma only_KeyError_bind {A B} (c : M A) (f : A → M B) :
  only_KeyError c → (∀ a, only_KeyError (f a)) → only_KeyError (c ≫= f).
Proof.
  intros Hc Hf w e w'. unfold mbind, M_bind.
  destruct (c w) as [[a|e0] w1] eqn:Hcw.
  - apply Hf.
  - intros H; inversion H; subst. by eapply Hc.
Qed.

(** Each removal raises [KeyError] or nothing, so the block never raises. *)
Lemma remove_identity_Ok lv w : (remove_identity lv w).1 = Ok tt.
Proof.
  unfold remove_identity, try_except.
  match goal with |- context [match ?c w with _ => _ end] =>
    assert (only_KeyError c) as Hk
      by (repeat (apply only_KeyError_bind; [|intros _]); apply only_KeyError_remove);
    destruct (c w) as [[[]|e] w1] eqn:Hc
  end.
  - done.
  - by rewrite (Hk _ _ _ Hc).
Qed.

Lemma handler_raises {A} lv e w :
  (remove_identity lv;; raise (A:=A) e) w = (Raise e, (remove_identity lv w).2).
Proof.
  pose proof (remove_identity_Ok lv w) as H.
  unfold mbind, M_bind. destruct (remove_identity lv w) as [[[]|e'] w1]; by simplify_eq/=.
Qed.

(** The record fails with the exception of its [try] body. *)
Lemma sensor_body_raises (E : Env) parent d w e w1 :
  let lv := sensor_labels E parent (dict_get d "sensor_index") (dict_get d "name") in
  try_body E lv (dict_get d "stats") (dict_get d "temperature")
    (dict_get d "humidity") (dict_get d "pressure") w = (Raise e, w1) →
  sensor_body E parent (JDict d) w = (Raise e, (remove_identity lv w1).2).
Proof.
  intros lv Hbody. rewrite sensor_body_dict. cbv zeta. fold lv.
  erewrite try_except_Raise; [apply handler_raises|exact Hbody|reflexivity].
Qed.

Lemma remove_identity_without_index lv w :
  gauge_of Aqi (metrics w) !! lv = None → remove_identity lv w = (Ok tt, w).
Proof.
  intros H. unfold remove_identity, try_except.
  erewrite bind_Raise; last by (unfold gauge_remove; rewrite H).
  reflexivity.
Qed.

(** C4 -- The claim has the removal take away every entry of the identity
    that is present, whichever of the six are missing.  The six removals
    share one [try]: the first missing entry ends the block.  So when the
    identity has no raw-index entry, the block removes nothing at all and
    whatever the other five gauges hold for the identity stays exported. *)
Theorem removal_stops_at_first_missing (lv : labelvalues) (w : world) :
  aqi_g (metrics w) !! lv = None →
  remove_identity lv w = (Ok tt, w).
Proof.
  intros H. unfold remove_identity, try_except.
  erewrite bind_Raise; last by (unfold gauge_remove; simpl; rewrite H).
  reflexivity.
Qed.

Lemma removal_stops_at_first_missing_witness :
  remove_identity lv_S world_temp_only = (Ok tt, world_temp_only)
  ∧ temp_g (metrics world_temp_only) !! lv_S = Some 72.5%float.
Proof.
  split.
  - apply (removal_stops_at_first_missing lv_S world_temp_only). reflexivity.
  - reflexivity.
Defined.

(** The same at the level of a record: a blob that does not decode, met while
    only the temperature is exported, leaves the temperature exported. *)
Example failed_transform_keeps_temperature :
  sensor_body demo "1001" record_bad_stats world_temp_only
  = (Raise ValueError, world_temp_only).
Proof. reflexivity. Qed.

(** With all six entries present the block removes them all, and a second
    run changes nothing. *)
Example removal_of_six_entries :
  let w := (remove_identity lv_porch world_porch).2 in
  metrics w = empty_registry ∧ remove_identity lv_porch w = (Ok tt, w).
Proof. split; vm_compute; reflexivity. Qed.

(** ** Zero readings *)

Lemma zero_reading_falsy x : zero_reading x → truthy x = false.
Proof. by intros [-> | ->]. Qed.

(** C5 -- The claim has a zero reading exported like any other value.  The
    guards test the truth value of each reading, and zero is false: for a
    record whose decoded blob carries a 10-minute average of zero and whose
    temperature, humidity and pressure are zero, nothing is set and the
    registry is left as it was, exactly as if the four fields were absent. *)
Theorem zero_readings_not_exported (E : Env) parent d blob sd w :
  dict_get d "stats" = JStr blob →
  blob ≠ "" →
  json_loads E blob = Some (JDict sd) →
  zero_reading (dict_get sd "pm2.5_10minute") →
  zero_reading (dict_get d "temperature") →
  zero_reading (dict_get d "humidity") →
  zero_reading (dict_get d "pressure") →
  sensor_body E parent (JDict d) w = (Ok tt, w).
Proof.
  intros Hstats Hblob Hloads Hpm Ht Hh Hp.
  rewrite sensor_body_dict. cbv zeta. apply try_except_Ok.
  rewrite Hstats, (try_body_decoded _ _ _ _ _ _ _ _ Hblob Hloads).
  erewrite bind_Ok by reflexivity.
  erewrite bind_Ok by (by apply export_pm25_falsy, zero_reading_falsy).
  erewrite bind_Ok by (by apply export_reading_falsy, zero_reading_falsy).
  erewrite bind_Ok by (by apply export_reading_falsy, zero_reading_falsy).
  by apply export_reading_falsy, zero_reading_falsy.
Qed.

Lemma zero_readings_not_exported_witness :
  sensor_body demo "1001" record_zeros world0 = (Ok tt, world0).
Proof.
  apply (zero_readings_not_exported demo "1001"
           [("sensor_index", JInt 1001); ("name", JStr "porch");
            ("stats", JStr blob_0); ("temperature", JInt 0);
            ("humidity", JInt 0); ("pressure", JInt 0)]
           blob_0 [("pm2.5_10minute", JFloat 0.0)] world0).
  - reflexivity.
  - discriminate.
  - reflexivity.
  - right; reflexivity.
  - left; reflexivity.
  - left; reflexivity.
  - left; reflexivity.
Defined.

(** ** A blob that is not text *)

Lemma py_json_loads_non_text (E : Env) stats :
  (∀ s, stats ≠ JStr s) → py_json_loads E stats = Raise TypeError.
Proof. intros H. destruct stats; try reflexivity. by destruct (H s). Qed.

(** C10 (as amended) -- A blob that is present and true as a condition
    (not empty, not zero) but is not text makes the decoder raise a type
    error: the removal block runs for the record's label values, the
    exception leaves the loop over the records, and no later record of the
    response is processed. *)
Theorem non_text_blob_fails (E : Env) parent d (rest : list json) w :
  truthy (dict_get d "stats") = true →
  (∀ s, dict_get d "stats" ≠ JStr s) →
  let lv := sensor_labels E parent (dict_get d "sensor_index") (dict_get d "name") in
  sensor_body E parent (JDict d) w = (Raise TypeError, (remove_identity lv w).2) ∧
  for_each (JDict d :: rest) (sensor_body E parent) w
    = (Raise TypeError, (remove_identity lv w).2).
Proof.
  intros Htruthy Htext lv.
  assert (sensor_body E parent (JDict d) w = (Raise TypeError, (remove_identity lv w).2)) as H.
  { rewrite sensor_body_dict. cbv zeta. fold lv.
    erewrite try_except_Raise; [apply handler_raises| |reflexivity].
    unfold try_body. rewrite Htruthy. apply bind_Raise.
    unfold lift. by rewrite py_json_loads_non_text. }
  split; first done. simpl. by apply bind_Raise.
Qed.

Lemma non_text_blob_fails_witness :
  for_each [record_object_stats; record_S] (sensor_body demo "2002") world_porch
  = (Raise TypeError, World empty_registry []).
Proof.
  refine (proj2 (non_text_blob_fails demo "2002"
           [("sensor_index", JInt 1001); ("name", JStr "porch");
            ("stats", JDict [("pm2.5_10minute", JFloat 12.0)]);
            ("temperature", JFloat 72.5)] [record_S] world_porch _ _)).
  - reflexivity.
  - discriminate.
Defined.

(** C10 -- An empty object as the blob is present and is not text, yet the
    guard takes it for absent: the record is processed without an
    exception and nothing is removed. *)
Lemma empty_object_blob_is_skipped :
  dict_get [("sensor_index", JInt 1001); ("name", JStr "porch");
            ("stats", JDict []); ("temperature", JFloat 72.5)] "stats" = JDict []
  ∧ sensor_body demo "2002" record_empty_object_stats world_porch
    = (Ok tt, world_porch).
Proof. split; reflexivity. Qed.

(** ** A record processed without an exception *)

Lemma sensor_body_inv_Ok (E : Env) parent d w w' :
  sensor_body E parent (JDict d) w = (Ok tt, w') →
  try_body E (sensor_labels E parent (dict_get d "sensor_index") (dict_get d "name"))
    (dict_get d "stats") (dict_get d "temperature")
    (dict_get d "humidity") (dict_get d "pressure") w = (Ok tt, w').
Proof.
  rewrite sensor_body_dict. cbv zeta. apply try_except_inv_Ok; last done.
  intros e w1. by rewrite handler_raises.
Qed.

Lemma try_body_inv_Ok (E : Env) lv stats t h p w w' :
  truthy stats = true →
  try_body E lv stats t h p w = (Ok tt, w') →
  ∃ stats' raw w1 w2 w3,
    py_json_loads E stats = Ok stats' ∧
    py_get stats' "pm2.5_10minute" = Ok raw ∧
    export_pm25 E lv raw w = (Ok tt, w1) ∧
    export_reading E Temp lv t w1 = (Ok tt, w2) ∧
    export_reading E Pressure lv p w2 = (Ok tt, w3) ∧
    export_reading E Humidity lv h w3 = (Ok tt, w').
Proof.
  intros Htruthy. unfold try_body. rewrite Htruthy. intros H.
  apply bind_inv_Ok in H as (stats' & w0 & Hloads & H).
  apply lift_inv_Ok in Hloads as [Hloads ->].
  apply bind_inv_Ok in H as (raw & w0 & Hraw & H).
  apply lift_inv_Ok in Hraw as [Hraw ->].
  apply bind_inv_Ok in H as ([] & w1 & H1 & H).
  apply bind_inv_Ok in H as ([] & w2 & H2 & H).
  apply bind_inv_Ok in H as ([] & w3 & H3 & H).
  by exists stats', raw, w1, w2, w3.
Qed.

(** The same with the blob decoded to an object. *)
Lemma sensor_body_inv_decoded (E : Env) parent d blob sd w w' :
  sensor_body E parent (JDict d) w = (Ok tt, w') →
  dict_get d "stats" = JStr blob →
  blob ≠ "" →
  json_loads E blob = Some (JDict sd) →
  let lv := sensor_labels E parent (dict_get d "sensor_index") (dict_get d "name") in
  ∃ w1 w2 w3,
    export_pm25 E lv (dict_get sd "pm2.5_10minute") w = (Ok tt, w1) ∧
    export_reading E Temp lv (dict_get d "temperature") w1 = (Ok tt, w2) ∧
    export_reading E Pressure lv (dict_get d "pressure") w2 = (Ok tt, w3) ∧
    export_reading E Humidity lv (dict_get d "humidity") w3 = (Ok tt, w').
Proof.
  intros Hrun Hstats Hblob Hloads lv.
  apply sensor_body_inv_Ok in Hrun. fold lv in Hrun. rewrite Hstats in Hrun.
  apply try_body_inv_Ok in Hrun
    as (stats' & raw & w1 & w2 & w3 & Hl & Hraw & Hpm & Ht & Hp & Hh);
    last by apply truthy_JStr.
  unfold py_json_loads in Hl. rewrite Hloads in Hl. inversion Hl; subst stats'.
  inversion Hraw; subst raw. by exists w1, w2, w3.
Qed.

Lemma export_reading_truthy_Ok (E : Env) m lv x w w' :
  truthy x = true →
  export_reading E m lv x w = (Ok tt, w') →
  ∃ v, py_float E x = Ok v ∧ gauge_of m (metrics w') !! lv = Some v.
Proof.
  intros Htruthy. unfold export_reading. rewrite Htruthy. intros H.
  apply bind_inv_Ok in H as ([] & w1 & H1 & H).
  apply bind_inv_Ok in H as (v & w2 & Hv & H).
  apply lift_inv_Ok in Hv as [Hv ->].
  exists v. split; first done. by eapply labels_set_lookup.
Qed.

Lemma export_reading_exported (E : Env) m lv x w w' :
  export_reading E m lv x w = (Ok tt, w') → reading_exported E m x lv w w'.
Proof.
  intros H. split.
  - intros Htruthy. by eapply export_reading_truthy_Ok.
  - intros ->. rewrite export_reading_falsy in H by done. by inversion H.
Qed.

Lemma reading_exported_frame (E : Env) m x lv w0 w w' w1 :
  gauge_of m (metrics w) !! lv = gauge_of m (metrics w0) !! lv →
  gauge_of m (metrics w1) !! lv = gauge_of m (metrics w') !! lv →
  reading_exported E m x lv w w' → reading_exported E m x lv w0 w1.
Proof.
  intros H0 H1 [Ht Hn]. split.
  - intros Htruthy. destruct (Ht Htruthy) as (v & Hv & Hl). exists v. by rewrite H1.
  - intros Hx. by rewrite H1, (Hn Hx).
Qed.

(** The three readings over the four steps of the [try] body. *)
Lemma readings_after_steps (E : Env) lv raw t p h w w1 w2 w3 w' :
  export_pm25 E lv raw w = (Ok tt, w1) →
  export_reading E Temp lv t w1 = (Ok tt, w2) →
  export_reading E Pressure lv p w2 = (Ok tt, w3) →
  export_reading E Humidity lv h w3 = (Ok tt, w') →
  reading_exported E Temp t lv w w' ∧
  reading_exported E Humidity h lv w w' ∧
  reading_exported E Pressure p lv w w'.
Proof.
  intros Hpm Ht Hp Hh.
  pose proof (λ m H1 H2 H3, export_pm25_other E m lv lv _ _ _ _ H1 H2 H3 Hpm) as Kpm.
  pose proof (λ m H, export_reading_other E Temp m lv lv _ _ _ _ H Ht) as Kt.
  pose proof (λ m H, export_reading_other E Pressure m lv lv _ _ _ _ H Hp) as Kp.
  pose proof (λ m H, export_reading_other E Humidity m lv lv _ _ _ _ H Hh) as Kh.
  split; [|split].
  - eapply reading_exported_frame; [| |by apply export_reading_exported, Ht].
    + by apply Kpm.
    + by rewrite Kh, Kp.
  - eapply reading_exported_frame; [| |by apply export_reading_exported, Hh].
    + by rewrite Kp, Kt, Kpm.
    + done.
  - eapply reading_exported_frame; [| |by apply export_reading_exported, Hp].
    + by rewrite Kt, Kpm.
    + by rewrite Kh.
Qed.

(** C3 (as amended) -- For a record processed without an exception: when
    the statistics blob is absent nothing is exported, the three readings
    included; when the blob is present and true as a condition, each of
    temperature, humidity and pressure is set from its own raw field when
    that field is true as a condition, and is left as it was when that field
    is absent, whatever the other two fields and the 10-minute average
    are. *)
Theorem readings_follow_blob (E : Env) parent d w w' :
  sensor_body E parent (JDict d) w = (Ok tt, w') →
  let lv := sensor_labels E parent (dict_get d "sensor_index") (dict_get d "name") in
  (dict_get d "stats" = JNull → w' = w) ∧
  (truthy (dict_get d "stats") = true →
     reading_exported E Temp (dict_get d "temperature") lv w w' ∧
     reading_exported E Humidity (dict_get d "humidity") lv w w' ∧
     reading_exported E Pressure (dict_get d "pressure") lv w w').
Proof.
  intros Hrun lv. split.
  - intros Hstats. by eapply sensor_body_no_stats.
  - intros Htruthy. apply sensor_body_inv_Ok in Hrun. fold lv in Hrun.
    apply try_body_inv_Ok in Hrun
      as (stats' & raw & w1 & w2 & w3 & _ & _ & Hpm & Ht & Hp & Hh); last done.
    by eapply readings_after_steps.
Qed.

Lemma readings_follow_blob_witness :
  let w' := (sensor_body demo "1001" record_S world0).2 in
  reading_exported demo Temp (JFloat 72.5) lv_S world0 w' ∧
  reading_exported demo Humidity (JInt 40) lv_S world0 w' ∧
  reading_exported demo Pressure (JInt 1013) lv_S world0 w'.
Proof.
  intros w'.
  refine (proj2 (readings_follow_blob demo "1001"
           [("sensor_index", JInt 1001); ("name", JStr "porch");
            ("stats", JStr blob_12); ("temperature", JFloat 72.5);
            ("humidity", JInt 40); ("pressure", JInt 1013)] world0 w' _) _).
  - reflexivity.
  - reflexivity.
Defined.

(** C3 -- A temperature that is present and numeric in a record without a
    blob: the record is processed without an exception and the temperature
    is not exported. *)
Lemma temperature_without_blob_not_exported :
  py_float demo (dict_get [("sensor_index", JInt 1001); ("name", JStr "porch");
                           ("temperature", JFloat 72.5); ("humidity", JInt 40);
                           ("pressure", JInt 1013)] "temperature") = Ok 72.5%float
  ∧ (sensor_body demo "1001" record_no_stats world0).1 = Ok tt
  ∧ temp_g (metrics (sensor_body demo "1001" record_no_stats world0).2) !! lv_S = None.
Proof. repeat split; reflexivity. Qed.

(** ** The three indices *)

Lemma py_to_iaqi_inv (E : Env) s a : py_to_iaqi E s = Ok a → to_iaqi E s = Some a.
Proof. unfold py_to_iaqi. destruct (to_iaqi E s); intros H; by inversion H. Qed.

Lemma py_max0_nonneg v : PrimFloat.ltb v 0 = false → py_max0 v = JFloat v.
Proof. intros H. unfold py_max0. by rewrite H. Qed.

Lemma export_pm25_inv_Ok (E : Env) lv raw v w w' :
  truthy raw = true →
  py_float E raw = Ok v →
  PrimFloat.ltb v 0 = false →
  export_pm25 E lv raw w = (Ok tt, w') →
  ∃ a1 a2 a3,
    to_iaqi E (py_str E (JFloat v)) = Some a1 ∧
    to_iaqi E (py_str E (JFloat (0.778 * v + 2.65))) = Some a2 ∧
    to_iaqi E (py_str E (py_max0 (0.5 * v - 0.66))) = Some a3 ∧
    gauge_of Aqi (metrics w') !! lv = Some a1 ∧
    gauge_of AqiAQandU (metrics w') !! lv = Some a2 ∧
    gauge_of AqiLRAPA (metrics w') !! lv = Some a3.
Proof.
  intros Htruthy Hv Hlt. unfold export_pm25. rewrite Htruthy, Hv.
  erewrite bind_Ok by reflexivity. cbv zeta. rewrite (py_max0_nonneg _ Hlt).
  intros H.
  apply bind_inv_Ok in H as (a1 & w0 & Ha1 & H).
  apply lift_inv_Ok in Ha1 as [Ha1%py_to_iaqi_inv ->].
  apply bind_inv_Ok in H as ([] & w1 & L1 & H).
  apply bind_inv_Ok in H as ([] & w2 & S1 & H).
  erewrite bind_Ok in H by reflexivity.
  apply bind_inv_Ok in H as (a2 & w0 & Ha2 & H).
  apply lift_inv_Ok in Ha2 as [Ha2%py_to_iaqi_inv ->].
  apply bind_inv_Ok in H as ([] & w3 & L2 & H).
  apply bind_inv_Ok in H as ([] & w4 & S2 & H).
  erewrite bind_Ok in H by reflexivity.
  apply bind_inv_Ok in H as (a3 & w0 & Ha3 & H).
  apply lift_inv_Ok in Ha3 as [Ha3%py_to_iaqi_inv ->].
  apply bind_inv_Ok in H as ([] & w5 & L3 & S3).
  exists a1, a2, a3. repeat split; try done.
  - rewrite (modify_gauge_other AqiLRAPA Aqi _ _ _ _ ltac:(done) S3).
    rewrite (modify_gauge_other AqiLRAPA Aqi _ _ _ _ ltac:(done) L3).
    rewrite (modify_gauge_other AqiAQandU Aqi _ _ _ _ ltac:(done) S2).
    rewrite (modify_gauge_other AqiAQandU Aqi _ _ _ _ ltac:(done) L2).
    by eapply labels_set_lookup.
  - rewrite (modify_gauge_other AqiLRAPA AqiAQandU _ _ _ _ ltac:(done) S3).
    rewrite (modify_gauge_other AqiLRAPA AqiAQandU _ _ _ _ ltac:(done) L3).
    by eapply labels_set_lookup.
  - by eapply labels_set_lookup.
Qed.

(** The three readings leave the index gauges alone. *)
Lemma index_after_readings (E : Env) m lv t p h w1 w2 w3 w' :
  m ≠ Temp → m ≠ Pressure → m ≠ Humidity →
  export_reading E Temp lv t w1 = (Ok tt, w2) →
  export_reading E Pressure lv p w2 = (Ok tt, w3) →
  export_reading E Humidity lv h w3 = (Ok tt, w') →
  gauge_of m (metrics w') !! lv = gauge_of m (metrics w1) !! lv.
Proof.
  intros H1 H2 H3 Ht Hp Hh.
  rewrite (export_reading_other E Humidity m _ _ _ _ _ _ ltac:(done) Hh).
  rewrite (export_reading_other E Pressure m _ _ _ _ _ _ ltac:(done) Hp).
  by rewrite (export_reading_other E Temp m _ _ _ _ _ _ ltac:(done) Ht).
Qed.

(** The three formulas -- For a record processed without an exception whose
    decoded blob carries a 10-minute average with numeric value [v], true
    as a condition and not below zero, the three index gauges hold, for the
    record's label values, what the converter returns for [v], for
    [0.778 * v + 2.65] and for [max(0.5 * v - 0.66, 0)]. *)
Theorem three_indices_from_average (E : Env) parent d blob sd v w w' :
  sensor_body E parent (JDict d) w = (Ok tt, w') →
  dict_get d "stats" = JStr blob →
  blob ≠ "" →
  json_loads E blob = Some (JDict sd) →
  truthy (dict_get sd "pm2.5_10minute") = true →
  py_float E (dict_get sd "pm2.5_10minute") = Ok v →
  PrimFloat.ltb v 0 = false →
  let lv := sensor_labels E parent (dict_get d "sensor_index") (dict_get d "name") in
  ∃ a1 a2 a3,
    to_iaqi E (py_str E (JFloat v)) = Some a1 ∧
    to_iaqi E (py_str E (JFloat (0.778 * v + 2.65))) = Some a2 ∧
    to_iaqi E (py_str E (py_max0 (0.5 * v - 0.66))) = Some a3 ∧
    aqi_g (metrics w') !! lv = Some a1 ∧
    aqi_AQandU_g (metrics w') !! lv = Some a2 ∧
    aqi_LRAPA_g (metrics w') !! lv = Some a3.
Proof.
  intros Hrun Hstats Hblob Hloads Htruthy Hv Hlt lv.
  destruct (sensor_body_inv_decoded E parent d blob sd w w' Hrun Hstats Hblob Hloads)
    as (w1 & w2 & w3 & Hpm & Ht & Hp & Hh). fold lv in Hpm, Ht, Hp, Hh.
  destruct (export_pm25_inv_Ok E lv _ v w w1 Htruthy Hv Hlt Hpm)
    as (a1 & a2 & a3 & Ha1 & Ha2 & Ha3 & G1 & G2 & G3).
  exists a1, a2, a3. repeat split; try done.
  - change (gauge_of Aqi (metrics w') !! lv = Some a1).
    by rewrite (index_after_readings E Aqi lv _ _ _ w1 w2 w3 w'
                  ltac:(done) ltac:(done) ltac:(done) Ht Hp Hh).
  - change (gauge_of AqiAQandU (metrics w') !! lv = Some a2).
    by rewrite (index_after_readings E AqiAQandU lv _ _ _ w1 w2 w3 w'
                  ltac:(done) ltac:(done) ltac:(done) Ht Hp Hh).
  - change (gauge_of AqiLRAPA (metrics w') !! lv = Some a3).
    by rewrite (index_after_readings E AqiLRAPA lv _ _ _ w1 w2 w3 w'
                  ltac:(done) ltac:(done) ltac:(done) Ht Hp Hh).
Qed.

Lemma three_indices_from_average_witness :
  ∃ a1 a2 a3,
    to_iaqi demo (py_str demo (JFloat 12.0)) = Some a1 ∧
    to_iaqi demo (py_str demo (JFloat (0.778 * 12.0 + 2.65))) = Some a2 ∧
    to_iaqi demo (py_str demo (py_max0 (0.5 * 12.0 - 0.66))) = Some a3 ∧
    aqi_g (metrics (sensor_body demo "1001" record_S world0).2) !! lv_S = Some a1 ∧
    aqi_AQandU_g (metrics (sensor_body demo "1001" record_S world0).2) !! lv_S = Some a2 ∧
    aqi_LRAPA_g (metrics (sensor_body demo "1001" record_S world0).2) !! lv_S = Some a3.
Proof.
  apply (three_indices_from_average demo "1001"
           [("sensor_index", JInt 1001); ("name", JStr "porch");
            ("stats", JStr blob_12); ("temperature", JFloat 72.5);
            ("humidity", JInt 40); ("pressure", JInt 1013)]
           blob_12 [("pm2.5_10minute", JFloat 12.0)] 12.0%float world0
           (sensor_body demo "1001" record_S world0).2).
  - reflexivity.
  - reflexivity.
  - discriminate.
  - reflexivity.
  - reflexivity.
  - reflexivity.
  - reflexivity.
Defined.

(** C6 -- The claim has the three indices produced for every average that
    is not below zero.  An average of zero is false as a condition and is
    skipped by the guard of line 105, although a negative average is clamped
    to zero and exported: for a record processed without an exception whose
    decoded blob carries an average of zero, nothing is set for the three
    indices, which stay as they were (absent, on a first round). *)
Theorem zero_average_sets_no_index (E : Env) parent d blob sd w w' :
  sensor_body E parent (JDict d) w = (Ok tt, w') →
  dict_get d "stats" = JStr blob →
  blob ≠ "" →
  json_loads E blob = Some (JDict sd) →
  zero_reading (dict_get sd "pm2.5_10minute") →
  let lv := sensor_labels E parent (dict_get d "sensor_index") (dict_get d "name") in
  aqi_g (metrics w') !! lv = aqi_g (metrics w) !! lv ∧
  aqi_AQandU_g (metrics w') !! lv = aqi_AQandU_g (metrics w) !! lv ∧
  aqi_LRAPA_g (metrics w') !! lv = aqi_LRAPA_g (metrics w) !! lv.
Proof.
  intros Hrun Hstats Hblob Hloads Hzero lv.
  destruct (sensor_body_inv_decoded E parent d blob sd w w' Hrun Hstats Hblob Hloads)
    as (w1 & w2 & w3 & Hpm & Ht & Hp & Hh). fold lv in Hpm, Ht, Hp, Hh.
  rewrite export_pm25_falsy in Hpm by (by apply zero_reading_falsy).
  inversion Hpm; subst w1.
  repeat split.
  - exact (index_after_readings E Aqi lv _ _ _ w w2 w3 w'
             ltac:(done) ltac:(done) ltac:(done) Ht Hp Hh).
  - exact (index_after_readings E AqiAQandU lv _ _ _ w w2 w3 w'
             ltac:(done) ltac:(done) ltac:(done) Ht Hp Hh).
  - exact (index_after_readings E AqiLRAPA lv _ _ _ w w2 w3 w'
             ltac:(done) ltac:(done) ltac:(done) Ht Hp Hh).
Qed.

Lemma zero_average_sets_no_index_witness :
  let w' := (sensor_body demo "1001" record_zero_pm world0).2 in
  aqi_g (metrics w') !! lv_S = None ∧
  aqi_AQandU_g (metrics w') !! lv_S = None ∧
  aqi_LRAPA_g (metrics w') !! lv_S = None.
Proof.
  intros w'.
  apply (zero_average_sets_no_index demo "1001"
           [("sensor_index", JInt 1001); ("name", JStr "porch");
            ("stats", JStr blob_0); ("temperature", JFloat 72.5)]
           blob_0 [("pm2.5_10minute", JFloat 0.0)] world0 w').
  - reflexivity.
  - reflexivity.
  - discriminate.
  - reflexivity.
  - right; reflexivity.
Defined.

(** ** The worked example *)

Lemma AQandU_of_12 : (0.778 * 12.0 + 2.65)%float = 11.986%float.
Proof. reflexivity. Qed.

Lemma LRAPA_of_12 : py_max0 (0.5 * 12.0 - 0.66)%float = JFloat 5.34%float.
Proof. reflexivity. Qed.

Lemma reading_exported_value (E : Env) m x v lv w w' :
  reading_exported E m x lv w w' →
  truthy x = true → py_float E x = Ok v →
  gauge_of m (metrics w') !! lv = Some v.
Proof.
  intros [Ht _] Htruthy Hv. destruct (Ht Htruthy) as (v' & Hv' & Hl).
  rewrite Hv in Hv'. by inversion Hv'; subst.
Qed.

(** The worked example with the concentrations the code passes -- A call of
    [check_sensor] that returns, for a sensor
    whose response holds one record with temperature 72.5, humidity 40,
    pressure 1013 and a blob decoding to a 10-minute average of 12.0, leaves
    all six gauges with a value for the record's label values: the three
    readings as floats, and the converter's results for 12.0, for 11.986
    (which is 0.778 * 12.0 + 2.65) and for 5.34. *)
Theorem worked_example (E : Env) key parent priv w w' resp bd d blob sd :
  requests_get E (sensor_url parent priv) key = Some resp →
  (200 ≤ status_code resp ≤ 299)%Z →
  json_body resp = Some (JDict bd) →
  dict_get bd "sensor" = JList [JDict d] →
  dict_get d "stats" = JStr blob →
  blob ≠ "" →
  json_loads E blob = Some (JDict sd) →
  dict_get sd "pm2.5_10minute" = JFloat 12.0 →
  dict_get d "temperature" = JFloat 72.5 →
  dict_get d "humidity" = JInt 40 →
  dict_get d "pressure" = JInt 1013 →
  check_sensor E key parent priv w = (Ok tt, w') →
  let lv := sensor_labels E parent (dict_get d "sensor_index") (dict_get d "name") in
  ∃ a1 a2 a3,
    to_iaqi E (py_str E (JFloat 12.0)) = Some a1 ∧
    to_iaqi E (py_str E (JFloat 11.986)) = Some a2 ∧
    to_iaqi E (py_str E (JFloat 5.34)) = Some a3 ∧
    aqi_g (metrics w') !! lv = Some a1 ∧
    aqi_AQandU_g (metrics w') !! lv = Some a2 ∧
    aqi_LRAPA_g (metrics w') !! lv = Some a3 ∧
    temp_g (metrics w') !! lv = Some 72.5%float ∧
    humidity_g (metrics w') !! lv = Some 40%float ∧
    pressure_g (metrics w') !! lv = Some 1013%float.
Proof.
  intros Hget Hstatus Hbody Hsensor Hstats Hblob Hloads Hpm25 Htemp Hhum Hpres Hrun lv.
  erewrite check_sensor_fetched in Hrun by done.
  apply for_each_single_inv_Ok in Hrun.
  destruct (sensor_body_inv_decoded E parent d blob sd _ w' Hrun Hstats Hblob Hloads)
    as (w1 & w2 & w3 & Hpm & Ht & Hp & Hh). fold lv in Hpm, Ht, Hp, Hh.
  rewrite Hpm25 in Hpm.
  pose proof Hpm as Hidx.
  eapply (export_pm25_inv_Ok E lv (JFloat 12.0) 12.0%float) in Hidx
    as (a1 & a2 & a3 & Ha1 & Ha2 & Ha3 & G1 & G2 & G3); [|reflexivity..].
  rewrite AQandU_of_12 in Ha2. rewrite LRAPA_of_12 in Ha3.
  destruct (readings_after_steps E lv _ _ _ _ _ w1 w2 w3 w' Hpm Ht Hp Hh)
    as (Rt & Rh & Rp).
  rewrite Htemp in Rt. rewrite Hhum in Rh. rewrite Hpres in Rp.
  exists a1, a2, a3. repeat split; try done.
  - change (gauge_of Aqi (metrics w') !! lv = Some a1).
    by rewrite (index_after_readings E Aqi lv _ _ _ w1 w2 w3 w'
                  ltac:(done) ltac:(done) ltac:(done) Ht Hp Hh).
  - change (gauge_of AqiAQandU (metrics w') !! lv = Some a2).
    by rewrite (index_after_readings E AqiAQandU lv _ _ _ w1 w2 w3 w'
                  ltac:(done) ltac:(done) ltac:(done) Ht Hp Hh).
  - change (gauge_of AqiLRAPA (metrics w') !! lv = Some a3).
    by rewrite (index_after_readings E AqiLRAPA lv _ _ _ w1 w2 w3 w'
                  ltac:(done) ltac:(done) ltac:(done) Ht Hp Hh).
  - by apply (reading_exported_value E Temp _ _ _ _ _ Rt).
  - by apply (reading_exported_value E Humidity _ _ _ _ _ Rh).
  - by apply (reading_exported_value E Pressure _ _ _ _ _ Rp).
Qed.

Lemma worked_example_witness :
  let w' := (check_sensor demo "KEY" "1001" None world0).2 in
  ∃ a1 a2 a3,
    to_iaqi demo (py_str demo (JFloat 12.0)) = Some a1 ∧
    to_iaqi demo (py_str demo (JFloat 11.986)) = Some a2 ∧
    to_iaqi demo (py_str demo (JFloat 5.34)) = Some a3 ∧
    aqi_g (metrics w') !! lv_S = Some a1 ∧
    aqi_AQandU_g (metrics w') !! lv_S = Some a2 ∧
    aqi_LRAPA_g (metrics w') !! lv_S = Some a3 ∧
    temp_g (metrics w') !! lv_S = Some 72.5%float ∧
    humidity_g (metrics w') !! lv_S = Some 40%float ∧
    pressure_g (metrics w') !! lv_S = Some 1013%float.
Proof.
  intros w'.
  apply (worked_example demo "KEY" "1001" None world0 w'
           (Response 200 (Some (JDict [("sensor", JList [record_S])])))
           [("sensor", JList [record_S])]
           [("sensor_index", JInt 1001); ("name", JStr "porch");
            ("stats", JStr blob_12); ("temperature", JFloat 72.5);
            ("humidity", JInt 40); ("pressure", JInt 1013)]
           blob_12 [("pm2.5_10minute", JFloat 12.0)]).
  - reflexivity.
  - simpl. lia.
  - reflexivity.
  - reflexivity.
  - reflexivity.
  - discriminate.
  - reflexivity.
  - reflexivity.
  - reflexivity.
  - reflexivity.
  - reflexivity.
  - reflexivity.
Defined.

(** C8 -- A call of [check_sensor] that returns, for a sensor whose response
    holds one record with temperature 72.5, humidity 40, pressure 1013 and a
    blob decoding to a 10-minute average of 12.0, leaves all six gauges with
    a value for the record's label values: the three readings, and the
    converter's results for 12.0, for 11.94 and for 5.34.  The concentration
    passed for the second index is 0.778 * 12.0 + 2.65 = 11.986; the index
    is the one of 11.94 for a converter that gives both the same index, as
    the EPA table does, working on the concentration cut to one decimal. *)
Theorem worked_example_registry (E : Env) key parent priv w w' resp bd d blob sd :
  requests_get E (sensor_url parent priv) key = Some resp →
  (200 ≤ status_code resp ≤ 299)%Z →
  json_body resp = Some (JDict bd) →
  dict_get bd "sensor" = JList [JDict d] →
  dict_get d "stats" = JStr blob →
  blob ≠ "" →
  json_loads E blob = Some (JDict sd) →
  dict_get sd "pm2.5_10minute" = JFloat 12.0 →
  dict_get d "temperature" = JFloat 72.5 →
  dict_get d "humidity" = JInt 40 →
  dict_get d "pressure" = JInt 1013 →
  to_iaqi E (py_str E (JFloat 11.986)) = to_iaqi E (py_str E (JFloat 11.94)) →
  check_sensor E key parent priv w = (Ok tt, w') →
  let lv := sensor_labels E parent (dict_get d "sensor_index") (dict_get d "name") in
  ∃ a1 a2 a3,
    to_iaqi E (py_str E (JFloat 12.0)) = Some a1 ∧
    to_iaqi E (py_str E (JFloat 11.94)) = Some a2 ∧
    to_iaqi E (py_str E (JFloat 5.34)) = Some a3 ∧
    aqi_g (metrics w') !! lv = Some a1 ∧
    aqi_AQandU_g (metrics w') !! lv = Some a2 ∧
    aqi_LRAPA_g (metrics w') !! lv = Some a3 ∧
    temp_g (metrics w') !! lv = Some 72.5%float ∧
    humidity_g (metrics w') !! lv = Some 40%float ∧
    pressure_g (metrics w') !! lv = Some 1013%float.
Proof.
  intros Hget Hstatus Hbody Hsensor Hstats Hblob Hloads Hpm25 Htemp Hhum Hpres Hsame Hrun lv.
  destruct (worked_example E key parent priv w w' resp bd d blob sd
              Hget Hstatus Hbody Hsensor Hstats Hblob Hloads Hpm25 Htemp Hhum Hpres Hrun)
    as (a1 & a2 & a3 & Ha1 & Ha2 & Ha3 & G).
  exists a1, a2, a3. rewrite <- Hsame. by repeat split; try apply G.
Qed.

Lemma worked_example_registry_witness :
  let w' := (check_sensor epa "KEY" "1001" None world0).2 in
  ∃ a1 a2 a3,
    to_iaqi epa (py_str epa (JFloat 12.0)) = Some a1 ∧
    to_iaqi epa (py_str epa (JFloat 11.94)) = Some a2 ∧
    to_iaqi epa (py_str epa (JFloat 5.34)) = Some a3 ∧
    aqi_g (metrics w') !! lv_S = Some a1 ∧
    aqi_AQandU_g (metrics w') !! lv_S = Some a2 ∧
    aqi_LRAPA_g (metrics w') !! lv_S = Some a3 ∧
    temp_g (metrics w') !! lv_S = Some 72.5%float ∧
    humidity_g (metrics w') !! lv_S = Some 40%float ∧
    pressure_g (metrics w') !! lv_S = Some 1013%float.
Proof.
  intros w'.
  apply (worked_example_registry epa "KEY" "1001" None world0 w'
           (Response 200 (Some (JDict [("sensor", JList [record_S])])))
           [("sensor", JList [record_S])]
           [("sensor_index", JInt 1001); ("name", JStr "porch");
            ("stats", JStr blob_12); ("temperature", JFloat 72.5);
            ("humidity", JInt 40); ("pressure", JInt 1013)]
           blob_12 [("pm2.5_10minute", JFloat 12.0)]).
  - reflexivity.
  - simpl. lia.
  - reflexivity.
  - reflexivity.
  - reflexivity.
  - discriminate.
  - reflexivity.
  - reflexivity.
  - reflexivity.
  - reflexivity.
  - reflexivity.
  - vm_compute. reflexivity.
  - vm_compute. reflexivity.
Defined.

(** With the EPA-shaped converter the three indices of the worked example
    are 50, 50 and 22. *)
Example worked_example_indices :
  let w' := (check_sensor epa "KEY" "1001" None world0).2 in
  aqi_g (metrics w') !! lv_S = Some 50%float ∧
  aqi_AQandU_g (metrics w') !! lv_S = Some 50%float ∧
  aqi_LRAPA_g (metrics w') !! lv_S = Some 22%float.
Proof. repeat split; vm_compute; reflexivity. Qed.

(** ** A failing record in a batch *)

Lemma keeps_sensor_body_dict (E : Env) (P : metric → labelvalues → Prop) parent d :
  (∀ m, ¬ P m (sensor_labels E parent (dict_get d "sensor_index") (dict_get d "name"))) →
  keeps P (sensor_body E parent (JDict d)).
Proof.
  intros HP w. rewrite sensor_body_dict. cbv zeta.
  apply keeps_try_except.
  - by apply keeps_try_body.
  - intros e. apply keeps_bind; [by apply keeps_remove_identity|intros _; apply keeps_raise].
Qed.

(** Other identities -- The fetch succeeded and the records before the
    failing one were processed, leaving the gauges as in [w1]; the failing record raises.
    Then [check_sensor] raises that exception without processing a later
    record, and every gauge entry under label values other than the
    failing record's is as in [w1]: what the earlier records set for their
    identities is still exported. *)
Theorem transform_failure_keeps_other_identities (E : Env) key parent priv w resp bd
    (pre post : list json) (d : list (string * json)) w1 e w2 :
  requests_get E (sensor_url parent priv) key = Some resp →
  (200 ≤ status_code resp ≤ 299)%Z →
  json_body resp = Some (JDict bd) →
  dict_get bd "sensor" = JList (pre ++ JDict d :: post) →
  for_each pre (sensor_body E parent)
    (World (metrics w) (sent w ++ [(sensor_url parent priv, key)])) = (Ok tt, w1) →
  sensor_body E parent (JDict d) w1 = (Raise e, w2) →
  check_sensor E key parent priv w = (Raise e, w2) ∧
  ∀ (m : metric) (lv : labelvalues),
    lv ≠ sensor_labels E parent (dict_get d "sensor_index") (dict_get d "name") →
    gauge_of m (metrics w2) !! lv = gauge_of m (metrics w1) !! lv.
Proof.
  intros Hget Hstatus Hbody Hsensor Hpre Hfail. split.
  - erewrite check_sensor_fetched by done. by eapply for_each_break.
  - intros m lv Hlv.
    eapply (keeps_run (λ _ lv', lv' ≠
      sensor_labels E parent (dict_get d "sensor_index") (dict_get d "name")));
      [|exact Hfail|exact Hlv].
    apply keeps_sensor_body_dict. intros _ H. by apply H.
Qed.

Lemma transform_failure_keeps_other_identities_witness :
  let w0 := World (metrics world_porch) [(sensor_url "2002" None, "KEY")] in
  let w1 := (sensor_body demo "2002" record_other w0).2 in
  let w2 := (sensor_body demo "2002" record_bad_stats w1).2 in
  check_sensor demo "KEY" "2002" None world_porch = (Raise ValueError, w2) ∧
  ∀ (m : metric) (lv : labelvalues),
    lv ≠ lv_porch → gauge_of m (metrics w2) !! lv = gauge_of m (metrics w1) !! lv.
Proof.
  intros w0 w1 w2.
  apply (transform_failure_keeps_other_identities demo "KEY" "2002" None world_porch
    (Response 200 (Some (JDict [("sensor", JList [record_other; record_bad_stats; record_S])])))
    [("sensor", JList [record_other; record_bad_stats; record_S])]
    [record_other] [record_S]
    [("sensor_index", JInt 1001); ("name", JStr "porch");
     ("stats", JStr "not json"); ("temperature", JFloat 72.5)]
    w1 ValueError w2).
  - reflexivity.
  - simpl. lia.
  - reflexivity.
  - reflexivity.
  - vm_compute. reflexivity.
  - vm_compute. reflexivity.
Defined.

(** In that run the earlier record's index is still there and the failing
    record's entries are gone. *)
Example batch_with_a_failing_record :
  let w2 := (check_sensor demo "KEY" "2002" None world_porch).2 in
  aqi_g (metrics w2) !! ("2002", "1002", "yard") = Some 12.0%float
  ∧ temp_g (metrics w2) !! ("2002", "1002", "yard") = Some 72.5%float
  ∧ aqi_g (metrics w2) !! lv_porch = None
  ∧ temp_g (metrics w2) !! lv_porch = None.
Proof. repeat split; vm_compute; reflexivity. Qed.

(** C9 -- The claim has the entries of the failing record's identity removed
    and everything else kept.  Everything else is kept (above); the entries
    of the failing identity are removed only up to the first missing one.
    When the failing record's blob does not decode and its identity has no
    raw index, nothing at all is removed: [check_sensor] raises from the
    state the earlier records left, in which whatever the identity exported
    (a temperature, say) is still exported. *)
Theorem failing_record_without_index_keeps_entries (E : Env) key parent priv w resp bd
    (pre post : list json) (d : list (string * json)) blob w1 :
  requests_get E (sensor_url parent priv) key = Some resp →
  (200 ≤ status_code resp ≤ 299)%Z →
  json_body resp = Some (JDict bd) →
  dict_get bd "sensor" = JList (pre ++ JDict d :: post) →
  for_each pre (sensor_body E parent)
    (World (metrics w) (sent w ++ [(sensor_url parent priv, key)])) = (Ok tt, w1) →
  dict_get d "stats" = JStr blob →
  blob ≠ "" →
  json_loads E blob = None →
  aqi_g (metrics w1)
    !! sensor_labels E parent (dict_get d "sensor_index") (dict_get d "name") = None →
  check_sensor E key parent priv w = (Raise ValueError, w1).
Proof.
  intros Hget Hstatus Hbody Hsensor Hpre Hstats Hblob Hloads Hnone.
  erewrite check_sensor_fetched by done.
  eapply for_each_break; first exact Hpre.
  erewrite sensor_body_raises.
  - by rewrite remove_identity_without_index.
  - unfold try_body. rewrite Hstats, (truthy_JStr _ Hblob).
    apply bind_Raise. unfold lift, py_json_loads. by rewrite Hloads.
Qed.

Lemma failing_record_without_index_keeps_entries_witness :
  let w1 := (sensor_body demo "2002" record_other
               (World (metrics world_porch_temp) [(sensor_url "2002" None, "KEY")])).2 in
  check_sensor demo "KEY" "2002" None world_porch_temp = (Raise ValueError, w1)
  ∧ temp_g (metrics w1) !! lv_porch = Some 72.5%float.
Proof.
  intros w1. split.
  - apply (failing_record_without_index_keeps_entries demo "KEY" "2002" None
      world_porch_temp
      (Response 200 (Some (JDict [("sensor", JList [record_other; record_bad_stats; record_S])])))
      [("sensor", JList [record_other; record_bad_stats; record_S])]
      [record_other] [record_S]
      [("sensor_index", JInt 1001); ("name", JStr "porch");
       ("stats", JStr "not json"); ("temperature", JFloat 72.5)]
      "not json" w1).
    + reflexivity.
    + simpl. lia.
    + reflexivity.
    + reflexivity.
    + vm_compute. reflexivity.
    + reflexivity.
    + discriminate.
    + reflexivity.
    + vm_compute. reflexivity.
  - vm_compute. reflexivity.
Defined.

(** * Further properties *)

(** ** [clear_metrics] *)

(** X1 -- [clear_metrics] clears nothing: on every state it raises a type
    error at the lock of the first gauge, before any gauge is touched, and
    leaves the six gauges and the requests sent as they were. *)
Theorem clear_metrics_clears_nothing (w : world) :
  ∃ w', clear_metrics w = (Raise TypeError, w') ∧
        sent w' = sent w ∧
        (∀ (m : metric) (lv : labelvalues),
           gauge_of m (metrics w') !! lv = gauge_of m (metrics w) !! lv).
Proof. exists w. by rewrite clear_metrics_raises. Qed.

(** ** The request and the shape of the response *)

Lemma keeps_for_each {A} (P : metric → labelvalues → Prop) (l : list A)
    (body : A → M unit) :
  (∀ x, keeps P (body x)) → keeps P (for_each l body).
Proof.
  intros Hbody. induction l as [|x l IH]; simpl.
  - apply keeps_ret.
  - apply keeps_bind; [apply Hbody|by intros _].
Qed.

Lemma keeps_sensor_body (E : Env) (P : metric → labelvalues → Prop) parent sensor :
  (∀ m (sensor_id name : string), ¬ P m (parent, sensor_id, name)) →
  keeps P (sensor_body E parent sensor).
Proof.
  intros HP. destruct sensor;
    try (intros w; by rewrite sensor_body_not_dict by done).
  apply keeps_sensor_body_dict. intros m. apply HP.
Qed.

Lemma keeps_clear_metrics (P : metric → labelvalues → Prop) : keeps P clear_metrics.
Proof. intros w. by rewrite clear_metrics_raises. Qed.

(** After the request: everything that follows sends nothing more. *)
Lemma check_sensor_after_request (E : Env) key parent priv w resp :
  requests_get E (sensor_url parent priv) key = Some resp →
  check_sensor E key parent priv w =
  (if ((status_code resp <? 200) || (299 <? status_code resp))%Z then
     clear_metrics;; raise Exception
   else
     resp_json ← try_except is_ValueError
       (lift (match json_body resp with Some v => Ok v | None => Raise ValueError end))
       (λ e, clear_metrics;; raise e);
     sensors ← lift (py_get resp_json "sensor");
     records ← lift (py_iter sensors);
     for_each records (sensor_body E parent)) (after_request parent priv key w).
Proof.
  intros Hget. unfold check_sensor.
  erewrite bind_Ok; last by (unfold http_get; rewrite Hget). reflexivity.
Qed.

Lemma check_sensor_no_response (E : Env) key parent priv w :
  requests_get E (sensor_url parent priv) key = None →
  check_sensor E key parent priv w =
  (Raise RequestException, after_request parent priv key w).
Proof.
  intros Hget. unfold check_sensor.
  erewrite bind_Raise; first reflexivity. unfold http_get. by rewrite Hget.
Qed.

(** X2 -- Whatever the response and whatever happens to the records, one
    call of [check_sensor] sends exactly one request: to the sensor's URL,
    with [?read_key=] and the private key when one is given and without it
    otherwise, under the read API key as header. *)
Theorem check_sensor_sends_one_request (E : Env) key parent priv w :
  sent (check_sensor E key parent priv w).2
  = (sent w ++ [(sensor_url parent priv, key)])%list.
Proof.
  destruct (requests_get E (sensor_url parent priv) key) as [resp|] eqn:Hget.
  - rewrite (check_sensor_after_request _ _ _ _ _ _ Hget).
    match goal with |- sent (?c ?w0).2 = _ =>
      assert (keeps (λ _ _, False) c) as Hk; [|destruct (Hk w0) as [Hs _]; by rewrite Hs]
    end.
    destruct (_ || _).
    + apply keeps_bind; [apply keeps_clear_metrics|intros _; apply keeps_raise].
    + apply keeps_bind; [|intros body; apply keeps_bind; [|intros sensors;
        apply keeps_bind; [|intros records]]]; try apply keeps_lift.
      * apply keeps_try_except; first apply keeps_lift.
        intros e. apply keeps_bind; [apply keeps_clear_metrics|intros _; apply keeps_raise].
      * apply keeps_for_each. intros x. apply keeps_sensor_body. by intros ??? [].
  - by rewrite check_sensor_no_response.
Qed.

(** X3 -- When the transport itself raises, the exception leaves
    [check_sensor] at once: [clear_metrics] is not called and every gauge
    keeps what it exported before. *)
Theorem transport_failure_keeps_registry (E : Env) key parent priv w :
  requests_get E (sensor_url parent priv) key = None →
  check_sensor E key parent priv w =
  (Raise RequestException, World (metrics w) (sent w ++ [(sensor_url parent priv, key)])).
Proof. apply check_sensor_no_response. Qed.

Lemma transport_failure_keeps_registry_witness :
  check_sensor demo "KEY" "7" None world_temp_only =
  (Raise RequestException,
   World (metrics world_temp_only) [("https://api.purpleair.com/v1/sensors/7", "KEY")]).
Proof.
  apply (transport_failure_keeps_registry demo "KEY" "7" None world_temp_only).
  reflexivity.
Defined.

(** X4 -- A body that decodes but is not an object (a list, a number, a
    text, null) has no [get]: an attribute error leaves [check_sensor]
    outside the handler of line 91, the gauges are not cleared and keep what
    they exported. *)
Theorem non_object_body_keeps_registry (E : Env) key parent priv w resp body :
  requests_get E (sensor_url parent priv) key = Some resp →
  (200 ≤ status_code resp ≤ 299)%Z →
  json_body resp = Some body →
  (∀ bd, body ≠ JDict bd) →
  check_sensor E key parent priv w =
  (Raise AttributeError, World (metrics w) (sent w ++ [(sensor_url parent priv, key)])).
Proof.
  intros Hget Hstatus Hbody Hshape.
  rewrite (check_sensor_after_request _ _ _ _ _ _ Hget), (status_ok_test _ Hstatus), Hbody.
  erewrite bind_Ok; last reflexivity.
  apply bind_Raise. destruct body; try reflexivity. by destruct (Hshape d).
Qed.

Lemma non_object_body_keeps_registry_witness :
  check_sensor wide "KEY" "3003" None world_temp_only =
  (Raise AttributeError,
   World (metrics world_temp_only) [("https://api.purpleair.com/v1/sensors/3003", "KEY")]).
Proof.
  apply (non_object_body_keeps_registry wide "KEY" "3003" None world_temp_only
           (Response 200 (Some (JList [record_S]))) (JList [record_S])).
  - reflexivity.
  - simpl. lia.
  - reflexivity.
  - discriminate.
Defined.

(** X5 -- A decoded object without a usable "sensor" entry (the key is
    missing or null): the loop has nothing to iterate, a type error leaves
    [check_sensor], and the gauges are not cleared. *)
Theorem missing_sensor_key_keeps_registry (E : Env) key parent priv w resp bd :
  requests_get E (sensor_url parent priv) key = Some resp →
  (200 ≤ status_code resp ≤ 299)%Z →
  json_body resp = Some (JDict bd) →
  dict_get bd "sensor" = JNull →
  check_sensor E key parent priv w =
  (Raise TypeError, World (metrics w) (sent w ++ [(sensor_url parent priv, key)])).
Proof.
  intros Hget Hstatus Hbody Hsensor.
  rewrite (check_sensor_after_request _ _ _ _ _ _ Hget), (status_ok_test _ Hstatus), Hbody.
  erewrite bind_Ok; last reflexivity.
  erewrite bind_Ok; last reflexivity.
  apply bind_Raise. by rewrite Hsensor.
Qed.

Lemma missing_sensor_key_keeps_registry_witness :
  check_sensor wide "KEY" "3004" None world_temp_only =
  (Raise TypeError,
   World (metrics world_temp_only) [("https://api.purpleair.com/v1/sensors/3004", "KEY")]).
Proof.
  apply (missing_sensor_key_keeps_registry wide "KEY" "3004" None world_temp_only
           (Response 200 (Some (JDict [("error", JStr "none")])))
           [("error", JStr "none")]).
  - reflexivity.
  - simpl. lia.
  - reflexivity.
  - reflexivity.
Defined.

(** X6 -- When "sensor" holds one object instead of a list of objects, the
    loop iterates over its keys: the first key is a text without [get], an
    attribute error is raised before the [try] of line 101, nothing is set or
    removed, and the gauges keep what they exported. *)
Theorem sensor_object_keeps_registry (E : Env) key parent priv w resp bd field fields :
  requests_get E (sensor_url parent priv) key = Some resp →
  (200 ≤ status_code resp ≤ 299)%Z →
  json_body resp = Some (JDict bd) →
  dict_get bd "sensor" = JDict (field :: fields) →
  check_sensor E key parent priv w =
  (Raise AttributeError, World (metrics w) (sent w ++ [(sensor_url parent priv, key)])).
Proof.
  intros Hget Hstatus Hbody Hsensor.
  rewrite (check_sensor_after_request _ _ _ _ _ _ Hget), (status_ok_test _ Hstatus), Hbody.
  erewrite bind_Ok; last reflexivity.
  erewrite bind_Ok; last reflexivity.
  rewrite Hsensor.
  erewrite bind_Ok; last reflexivity.
  reflexivity.
Qed.

Lemma sensor_object_keeps_registry_witness :
  check_sensor wide "KEY" "3005" None world_temp_only =
  (Raise AttributeError,
   World (metrics world_temp_only) [("https://api.purpleair.com/v1/sensors/3005", "KEY")]).
Proof.
  apply (sensor_object_keeps_registry wide "KEY" "3005" None world_temp_only
           (Response 200 (Some (JDict [("sensor", record_S)])))
           [("sensor", record_S)]
           ("sensor_index", JInt 1001)
           [("name", JStr "porch"); ("stats", JStr blob_12);
            ("temperature", JFloat 72.5); ("humidity", JInt 40);
            ("pressure", JInt 1013)]).
  - reflexivity.
  - simpl. lia.
  - reflexivity.
  - reflexivity.
Defined.

(** X7 -- An empty list of records: [check_sensor] returns without an
    exception and the gauges keep what they exported; nothing is removed
    for a sensor that no longer reports. *)
Theorem empty_batch_keeps_registry (E : Env) key parent priv w resp bd :
  requests_get E (sensor_url parent priv) key = Some resp →
  (200 ≤ status_code resp ≤ 299)%Z →
  json_body resp = Some (JDict bd) →
  dict_get bd "sensor" = JList [] →
  check_sensor E key parent priv w =
  (Ok tt, World (metrics w) (sent w ++ [(sensor_url parent priv, key)])).
Proof.
  intros Hget Hstatus Hbody Hsensor.
  by rewrite (check_sensor_fetched E key parent priv w resp bd []).
Qed.

Lemma empty_batch_keeps_registry_witness :
  check_sensor wide "KEY" "3006" None world_temp_only =
  (Ok tt,
   World (metrics world_temp_only) [("https://api.purpleair.com/v1/sensors/3006", "KEY")]).
Proof.
  apply (empty_batch_keeps_registry wide "KEY" "3006" None world_temp_only
           (Response 200 (Some (JDict [("sensor", JList [])])))
           [("sensor", JList [])]).
  - reflexivity.
  - simpl. lia.
  - reflexivity.
  - reflexivity.
Defined.

(** X8 -- When the response has a 2xx status and a body that decodes, a call of
    [check_sensor] for one parent sensor leaves alone every gauge entry
    whose parent sensor id is another one: whether the records succeed or
    fail, only entries labelled with the polled parent are set or removed. *)
Theorem other_parents_untouched (E : Env) key parent priv w resp :
  requests_get E (sensor_url parent priv) key = Some resp →
  (200 ≤ status_code resp ≤ 299)%Z →
  is_Some (json_body resp) →
  ∀ (m : metric) (parent' sensor_id name : string),
    parent' ≠ parent →
    gauge_of m (metrics (check_sensor E key parent priv w).2) !! (parent', sensor_id, name)
    = gauge_of m (metrics w) !! (parent', sensor_id, name).
Proof.
  intros Hget Hstatus [body Hbody] m parent' sensor_id name Hne.
  rewrite (check_sensor_after_request _ _ _ _ _ _ Hget), (status_ok_test _ Hstatus), Hbody.
  erewrite bind_Ok; last reflexivity.
  match goal with |- gauge_of m (metrics (?c ?w0).2) !! ?lv = _ =>
    assert (keeps (λ _ lv', lv'.1.1 ≠ parent) c) as Hk;
      [|destruct (Hk w0) as [_ Hg]; by rewrite Hg]
  end.
  apply keeps_bind; [|intros sensors; apply keeps_bind; [|intros records]];
    try apply keeps_lift.
  apply keeps_for_each. intros x. apply keeps_sensor_body.
  intros _ ? ? H. by apply H.
Qed.

Lemma other_parents_untouched_witness :
  gauge_of Temp (metrics (check_sensor demo "KEY" "2002" None world_temp_only).2) !! lv_S
  = gauge_of Temp (metrics world_temp_only) !! lv_S.
Proof.
  apply (other_parents_untouched demo "KEY" "2002" None world_temp_only
    (Response 200 (Some (JDict [("sensor", JList [record_other; record_bad_stats; record_S])])))).
  - reflexivity.
  - simpl. lia.
  - by eexists.
  - discriminate.
Defined.

(** ** A blob that does not decode to an object *)


(** X9 -- A blob that is a non-empty text but does not decode as JSON: the
    record fails with a value error before anything is set, the removal
    block is run for the record's label values on the state as it was, and
    the exception leaves the loop. *)
Theorem undecodable_blob_fails (E : Env) parent d blob w :
  dict_get d "stats" = JStr blob →
  blob ≠ "" →
  json_loads E blob = None →
  let lv := sensor_labels E parent (dict_get d "sensor_index") (dict_get d "name") in
  sensor_body E parent (JDict d) w = (Raise ValueError, (remove_identity lv w).2).
Proof.
  intros Hstats Hblob Hloads lv. apply sensor_body_raises.
  unfold try_body. rewrite Hstats, (truthy_JStr _ Hblob).
  apply bind_Raise. unfold lift, py_json_loads. by rewrite Hloads.
Qed.

Lemma undecodable_blob_fails_witness :
  sensor_body demo "2002" record_bad_stats world_porch
  = (Raise ValueError, World empty_registry []).
Proof.
  apply (undecodable_blob_fails demo "2002"
           [("sensor_index", JInt 1001); ("name", JStr "porch");
            ("stats", JStr "not json"); ("temperature", JFloat 72.5)]
           "not json" world_porch).
  - reflexivity.
  - discriminate.
  - reflexivity.
Defined.

(** X10 -- A blob whose text decodes to something other than an object (a
    list, a number, a text) has no [get]: the record fails with an attribute
    error before anything is set, and the removal block is run on the state
    as it was. *)
Theorem non_object_blob_fails (E : Env) parent d blob v w :
  dict_get d "stats" = JStr blob →
  blob ≠ "" →
  json_loads E blob = Some v →
  (∀ sd, v ≠ JDict sd) →
  let lv := sensor_labels E parent (dict_get d "sensor_index") (dict_get d "name") in
  sensor_body E parent (JDict d) w = (Raise AttributeError, (remove_identity lv w).2).
Proof.
  intros Hstats Hblob Hloads Hshape lv. apply sensor_body_raises.
  rewrite Hstats, (try_body_decoded _ _ _ _ _ _ _ _ Hblob Hloads).
  apply bind_Raise. destruct v; try reflexivity. by destruct (Hshape d0).
Qed.

Lemma non_object_blob_fails_witness :
  sensor_body wide "2002" record_list_stats world_porch
  = (Raise AttributeError, World empty_registry []).
Proof.
  apply (non_object_blob_fails wide "2002"
           [("sensor_index", JInt 1001); ("name", JStr "porch");
            ("stats", JStr blob_list); ("temperature", JFloat 72.5)]
           blob_list (JList [JInt 1]) world_porch).
  - reflexivity.
  - discriminate.
  - reflexivity.
  - discriminate.
Defined.

(** ** More on the removal block *)

Lemma only_removes_bind {A B} (c : M A) (f : A → M B) :
  only_removes c → (∀ a, only_removes (f a)) → only_removes (c ≫= f).
Proof.
  intros Hc Hf w m lv. specialize (Hc w m lv). unfold mbind, M_bind.
  destruct (c w) as [[a|e] w1]; simpl in *; last done.
  destruct (Hf a w1 m lv) as [H|H]; first by left.
  rewrite H. done.
Qed.

Lemma only_removes_remove m0 lv0 : only_removes (gauge_remove m0 lv0).
Proof.
  intros w m lv. unfold gauge_remove.
  destruct (gauge_of m0 (metrics w) !! lv0); last by right.
  simpl. destruct (decide (m0 = m)) as [<-|Hne].
  - rewrite gauge_of_update_eq. destruct (decide (lv0 = lv)) as [<-|Hlv].
    + left. apply lookup_delete_eq.
    + right. by apply lookup_delete_ne.
  - right. by rewrite gauge_of_update_ne.
Qed.

Lemma only_removes_remove_identity lv0 : only_removes (remove_identity lv0).
Proof.
  intros w m lv. unfold remove_identity, try_except.
  match goal with |- context [match ?c w with _ => _ end] =>
    assert (only_removes c) as Hc
      by (repeat (apply only_removes_bind; [|intros _]); apply only_removes_remove);
    specialize (Hc w m lv); destruct (c w) as [[[]|e] w1]
  end; first done.
  by destruct (is_KeyError e).
Qed.

(** X11 -- The removal block never raises, sends nothing, leaves every
    entry under other label values as it was, and creates or changes no
    entry of the identity: each of its six entries is afterwards gone or as
    before. *)
Theorem removal_block_is_safe (lv : labelvalues) (w : world) :
  ∃ w', remove_identity lv w = (Ok tt, w') ∧
        sent w' = sent w ∧
        (∀ (m : metric) (lv' : labelvalues), lv' ≠ lv →
           gauge_of m (metrics w') !! lv' = gauge_of m (metrics w) !! lv') ∧
        (∀ m : metric,
           gauge_of m (metrics w') !! lv = None ∨
           gauge_of m (metrics w') !! lv = gauge_of m (metrics w) !! lv).
Proof.
  pose proof (remove_identity_Ok lv w) as Hok.
  pose proof (keeps_remove_identity (λ _ lv', lv' ≠ lv) lv (λ _ H, H eq_refl) w) as [Hs Hg].
  pose proof (only_removes_remove_identity lv w) as Hr.
  destruct (remove_identity lv w) as [o w']; simpl in *; subst o.
  exists w'. split; [done|]. split; [done|]. split; [exact Hg|].
  intros m. apply Hr.
Qed.

Lemma gauge_remove_cases m lv w :
  (∃ w', gauge_remove m lv w = (Ok tt, w')) ∨ gauge_remove m lv w = (Raise KeyError, w).
Proof.
  unfold gauge_remove. destruct (gauge_of m (metrics w) !! lv); [left|right]; last done.
  by eexists.
Qed.

(** The removals as a loop over [removal_order]. *)
Lemma remove_identity_loop lv w :
  (remove_identity lv w).2 = (for_each removal_order (λ m, gauge_remove m lv) w).2.
Proof.
  unfold remove_identity, try_except, removal_order. simpl. unfold mbind, M_bind.
  repeat match goal with
         | |- context [match gauge_remove ?m lv ?w0 with _ => _ end] =>
             destruct (gauge_remove_cases m lv w0) as [[? ->]| ->]; simpl
         end; reflexivity.
Qed.

Lemma keeps_removals (P : metric → labelvalues → Prop) (ms : list metric) lv :
  (∀ m, m ∈ ms → ¬ P m lv) → keeps P (for_each ms (λ m, gauge_remove m lv)).
Proof.
  intros HP. induction ms as [|m ms IH]; simpl; first apply keeps_ret.
  apply keeps_bind.
  - apply keeps_remove, HP. by left.
  - intros _. apply IH. intros m' Hm'. apply HP. by right.
Qed.

(** The entries present for a duplicate-free head of the order are removed,
    whatever comes after. *)
Lemma removals_prefix (pre post : list metric) lv w :
  NoDup (pre ++ post) →
  (∀ m, m ∈ pre → is_Some (gauge_of m (metrics w) !! lv)) →
  ∀ m, m ∈ pre →
    gauge_of m (metrics (for_each (pre ++ post) (λ m, gauge_remove m lv) w).2) !! lv = None.
Proof.
  revert w. induction pre as [|m0 pre IH]; intros w Hnd Hpre m Hm.
  - by apply elem_of_nil in Hm.
  - simpl in Hnd. apply NoDup_cons in Hnd as [Hnotin Hnd]. simpl.
    destruct (Hpre m0) as [v Hv]; first by left.
    set (w1 := World (update_gauge m0 (delete lv) (metrics w)) (sent w)).
    assert (gauge_remove m0 lv w = (Ok tt, w1)) as Hstep
      by (unfold gauge_remove; by rewrite Hv).
    erewrite bind_Ok by exact Hstep.
    destruct (decide (m = m0)) as [->|Hne].
    + destruct (keeps_removals (λ m' _, m' = m0) (pre ++ post) lv
                  ltac:(by intros ? ? ->) w1) as [_ Hg].
      rewrite Hg by done. simpl. rewrite gauge_of_update_eq. apply lookup_delete_eq.
    + apply IH; [done| |].
      * intros m' Hm'. simpl. rewrite gauge_of_update_ne; first (apply Hpre; by right).
        intros ->. apply Hnotin. apply elem_of_app. by left.
      * apply elem_of_cons in Hm as [?|?]; done.
Qed.

(** X12 -- When all six entries of an identity are present, the removal
    block removes all six. *)
Theorem removal_of_complete_identity (lv : labelvalues) (w : world) :
  (∀ m : metric, is_Some (gauge_of m (metrics w) !! lv)) →
  ∀ m : metric, gauge_of m (metrics (remove_identity lv w).2) !! lv = None.
Proof.
  intros Hall m. rewrite remove_identity_loop.
  apply (removals_prefix removal_order [] lv w).
  - apply (bool_decide_unpack _). by vm_compute.
  - intros m' _. apply Hall.
  - unfold removal_order. destruct m; set_solver.
Qed.

Lemma removal_of_complete_identity_witness :
  gauge_of Humidity (metrics (remove_identity lv_porch world_porch).2) !! lv_porch = None.
Proof.
  apply (removal_of_complete_identity lv_porch world_porch).
  intros m. destruct m; vm_compute; by eexists.
Defined.


Lemma remove_identity_index_gone lv w :
  gauge_of Aqi (metrics (remove_identity lv w).2) !! lv = None.
Proof.
  destruct (gauge_of Aqi (metrics w) !! lv) as [v|] eqn:Hv.
  - rewrite remove_identity_loop.
    apply (removals_prefix [Aqi] [AqiAQandU; AqiLRAPA; Temp; Pressure; Humidity] lv w).
    + apply (bool_decide_unpack _). by vm_compute.
    + intros m ->%list_elem_of_singleton. by rewrite Hv.
    + by apply list_elem_of_singleton.
  - by rewrite remove_identity_without_index.
Qed.

(** X13 -- Running the removal block a second time for the same identity
    changes nothing and raises nothing. *)
Theorem removal_is_idempotent (lv : labelvalues) (w : world) :
  remove_identity lv (remove_identity lv w).2 = (Ok tt, (remove_identity lv w).2).
Proof. apply remove_identity_without_index, remove_identity_index_gone. Qed.

(** ** What a failing record leaves behind *)

Lemma sensor_body_inv_Raise (E : Env) parent d w e w' :
  sensor_body E parent (JDict d) w = (Raise e, w') →
  let lv := sensor_labels E parent (dict_get d "sensor_index") (dict_get d "name") in
  ∃ w1, try_body E lv (dict_get d "stats") (dict_get d "temperature")
          (dict_get d "humidity") (dict_get d "pressure") w = (Raise e, w1)
        ∧ w' = (remove_identity lv w1).2.
Proof.
  intros H lv. rewrite sensor_body_dict in H. cbv zeta in H. fold lv in H.
  unfold try_except in H.
  destruct (try_body E lv _ _ _ _ w) as [[[]|e0] w1]; first discriminate.
  simpl in H. rewrite handler_raises in H. inversion H; subst. by exists w1.
Qed.

(** X14 -- Whenever a record fails inside the [try], for whatever reason,
    the raw index of its identity is not exported afterwards: the first
    removal takes it away if it is there. *)
Theorem failed_record_drops_raw_index (E : Env) parent d w e w' :
  sensor_body E parent (JDict d) w = (Raise e, w') →
  aqi_g (metrics w')
    !! sensor_labels E parent (dict_get d "sensor_index") (dict_get d "name") = None.
Proof.
  intros H. apply sensor_body_inv_Raise in H as (w1 & _ & ->).
  apply remove_identity_index_gone.
Qed.

Lemma failed_record_drops_raw_index_witness :
  aqi_g (metrics (sensor_body demo "2002" record_bad_stats world_porch).2) !! lv_porch = None.
Proof.
  apply (failed_record_drops_raw_index demo "2002"
           [("sensor_index", JInt 1001); ("name", JStr "porch");
            ("stats", JStr "not json"); ("temperature", JFloat 72.5)]
           world_porch ValueError
           (sensor_body demo "2002" record_bad_stats world_porch).2).
  vm_compute. reflexivity.
Defined.

Lemma gauge_labels_run m lv w :
  gauge_labels m lv w =
  (Ok tt, World (update_gauge m (λ g, match g !! lv with
                                      | Some _ => g
                                      | None => <[lv := 0%float]> g
                                      end) (metrics w)) (sent w)).
Proof. reflexivity. Qed.

Lemma export_reading_conversion_fails (E : Env) m lv x e w :
  truthy x = true →
  py_float E x = Raise e →
  export_reading E m lv x w = (Raise e, (gauge_labels m lv w).2).
Proof.
  intros Htruthy Hfloat. unfold export_reading. rewrite Htruthy.
  erewrite bind_Ok by apply gauge_labels_run.
  apply bind_Raise. unfold lift. by rewrite Hfloat.
Qed.

(** X15 -- A temperature that is true as a condition but not numeric, in a
    record whose blob decodes to an object without an average, for an
    identity with no raw index and no temperature so far: the child of the
    temperature gauge is created before the conversion raises, the removal
    block stops at the missing raw index, and the record leaves a
    temperature of 0 exported for the identity. *)
Theorem text_temperature_exports_zero (E : Env) parent d blob sd e w :
  dict_get d "stats" = JStr blob →
  blob ≠ "" →
  json_loads E blob = Some (JDict sd) →
  truthy (dict_get sd "pm2.5_10minute") = false →
  truthy (dict_get d "temperature") = true →
  py_float E (dict_get d "temperature") = Raise e →
  let lv := sensor_labels E parent (dict_get d "sensor_index") (dict_get d "name") in
  aqi_g (metrics w) !! lv = None →
  temp_g (metrics w) !! lv = None →
  ∃ w', sensor_body E parent (JDict d) w = (Raise e, w') ∧
        temp_g (metrics w') !! lv = Some 0%float.
Proof.
  intros Hstats Hblob Hloads Havg Htruthy Hfloat lv Haqi Htemp.
  exists (gauge_labels Temp lv w).2.
  assert (remove_identity lv (gauge_labels Temp lv w).2 = (Ok tt, (gauge_labels Temp lv w).2))
    as Hrm by (by apply remove_identity_without_index).
  split.
  - erewrite sensor_body_raises.
    + fold lv. by rewrite Hrm.
    + fold lv. rewrite Hstats, (try_body_decoded _ _ _ _ _ _ _ _ Hblob Hloads).
      erewrite bind_Ok by reflexivity.
      erewrite bind_Ok by (by apply export_pm25_falsy).
      apply bind_Raise. by apply export_reading_conversion_fails.
  - simpl. rewrite Htemp. apply lookup_insert_eq.
Qed.

Lemma text_temperature_exports_zero_witness :
  ∃ w', sensor_body demo "1001" record_text_temp world0 = (Raise ValueError, w') ∧
        temp_g (metrics w') !! lv_S = Some 0%float.
Proof.
  apply (text_temperature_exports_zero demo "1001"
           [("sensor_index", JInt 1001); ("name", JStr "porch");
            ("stats", JStr blob_empty); ("temperature", JStr "warm")]
           blob_empty [] ValueError world0).
  - reflexivity.
  - discriminate.
  - reflexivity.
  - reflexivity.
  - reflexivity.
  - reflexivity.
  - reflexivity.
  - reflexivity.
Defined.

(** ** More on the three indices *)

(** The successful export of the indices, whatever the sign of the average. *)
Lemma export_pm25_inv_Ok_any (E : Env) lv raw w w' :
  truthy raw = true →
  export_pm25 E lv raw w = (Ok tt, w') →
  ∃ x f a1 a2 a3,
    py_float E raw = Ok x ∧
    py_float E (py_max0 x) = Ok f ∧
    to_iaqi E (py_str E (py_max0 x)) = Some a1 ∧
    to_iaqi E (py_str E (JFloat (0.778 * f + 2.65))) = Some a2 ∧
    to_iaqi E (py_str E (py_max0 (0.5 * f - 0.66))) = Some a3 ∧
    gauge_of Aqi (metrics w') !! lv = Some a1 ∧
    gauge_of AqiAQandU (metrics w') !! lv = Some a2 ∧
    gauge_of AqiLRAPA (metrics w') !! lv = Some a3.
Proof.
  intros Htruthy. unfold export_pm25. rewrite Htruthy. intros H.
  apply bind_inv_Ok in H as (x & w0 & Hx & H).
  apply lift_inv_Ok in Hx as [Hx ->]. cbv zeta in H.
  apply bind_inv_Ok in H as (a1 & w0 & Ha1 & H).
  apply lift_inv_Ok in Ha1 as [Ha1%py_to_iaqi_inv ->].
  apply bind_inv_Ok in H as ([] & w1 & L1 & H).
  apply bind_inv_Ok in H as ([] & w2 & S1 & H).
  apply bind_inv_Ok in H as (f & w0 & Hf & H).
  apply lift_inv_Ok in Hf as [Hf ->].
  apply bind_inv_Ok in H as (a2 & w0 & Ha2 & H).
  apply lift_inv_Ok in Ha2 as [Ha2%py_to_iaqi_inv ->].
  apply bind_inv_Ok in H as ([] & w3 & L2 & H).
  apply bind_inv_Ok in H as ([] & w4 & S2 & H).
  apply bind_inv_Ok in H as (f' & w0 & Hf' & H).
  apply lift_inv_Ok in Hf' as [Hf' ->].
  rewrite Hf in Hf'. inversion Hf'; subst f'.
  apply bind_inv_Ok in H as (a3 & w0 & Ha3 & H).
  apply lift_inv_Ok in Ha3 as [Ha3%py_to_iaqi_inv ->].
  apply bind_inv_Ok in H as ([] & w5 & L3 & S3).
  exists x, f, a1, a2, a3. repeat split; try done.
  - rewrite (modify_gauge_other AqiLRAPA Aqi _ _ _ _ ltac:(done) S3).
    rewrite (modify_gauge_other AqiLRAPA Aqi _ _ _ _ ltac:(done) L3).
    rewrite (modify_gauge_other AqiAQandU Aqi _ _ _ _ ltac:(done) S2).
    rewrite (modify_gauge_other AqiAQandU Aqi _ _ _ _ ltac:(done) L2).
    by eapply labels_set_lookup.
  - rewrite (modify_gauge_other AqiLRAPA AqiAQandU _ _ _ _ ltac:(done) S3).
    rewrite (modify_gauge_other AqiLRAPA AqiAQandU _ _ _ _ ltac:(done) L3).
    by eapply labels_set_lookup.
  - by eapply labels_set_lookup.
Qed.

Lemma py_max0_negative v : PrimFloat.ltb v 0 = true → py_max0 v = JInt 0.
Proof. intros H. unfold py_max0. by rewrite H. Qed.

(** X16 -- A negative 10-minute average is clamped: for a record processed
    without an exception whose average is below zero, the raw index and the
    LRAPA index are the converter's result for the text of the int [0], and
    the AQandU index is its result for 2.65. *)
Theorem negative_average_is_clamped (E : Env) parent d blob sd v w w' :
  sensor_body E parent (JDict d) w = (Ok tt, w') →
  dict_get d "stats" = JStr blob →
  blob ≠ "" →
  json_loads E blob = Some (JDict sd) →
  truthy (dict_get sd "pm2.5_10minute") = true →
  py_float E (dict_get sd "pm2.5_10minute") = Ok v →
  PrimFloat.ltb v 0 = true →
  let lv := sensor_labels E parent (dict_get d "sensor_index") (dict_get d "name") in
  ∃ a0 a1,
    to_iaqi E (py_str E (JInt 0)) = Some a0 ∧
    to_iaqi E (py_str E (JFloat 2.65)) = Some a1 ∧
    aqi_g (metrics w') !! lv = Some a0 ∧
    aqi_AQandU_g (metrics w') !! lv = Some a1 ∧
    aqi_LRAPA_g (metrics w') !! lv = Some a0.
Proof.
  intros Hrun Hstats Hblob Hloads Htruthy Hv Hlt lv.
  destruct (sensor_body_inv_decoded E parent d blob sd w w' Hrun Hstats Hblob Hloads)
    as (w1 & w2 & w3 & Hpm & Ht & Hp & Hh). fold lv in Hpm, Ht, Hp, Hh.
  destruct (export_pm25_inv_Ok_any E lv _ w w1 Htruthy Hpm)
    as (x & f & a1 & a2 & a3 & Hx & Hf & Ha1 & Ha2 & Ha3 & G1 & G2 & G3).
  rewrite Hv in Hx. inversion Hx; subst x.
  rewrite (py_max0_negative _ Hlt) in Hf, Ha1.
  vm_compute in Hf. inversion Hf; subst f.
  change (py_max0 (0.5 * 0 - 0.66)%float) with (JInt 0) in Ha3.
  change (0.778 * 0 + 2.65)%float with 2.65%float in Ha2.
  rewrite Ha1 in Ha3. inversion Ha3; subst a3.
  exists a1, a2. repeat split; try done.
  - change (gauge_of Aqi (metrics w') !! lv = Some a1).
    by rewrite (index_after_readings E Aqi lv _ _ _ w1 w2 w3 w'
                  ltac:(done) ltac:(done) ltac:(done) Ht Hp Hh).
  - change (gauge_of AqiAQandU (metrics w') !! lv = Some a2).
    by rewrite (index_after_readings E AqiAQandU lv _ _ _ w1 w2 w3 w'
                  ltac:(done) ltac:(done) ltac:(done) Ht Hp Hh).
  - change (gauge_of AqiLRAPA (metrics w') !! lv = Some a1).
    by rewrite (index_after_readings E AqiLRAPA lv _ _ _ w1 w2 w3 w'
                  ltac:(done) ltac:(done) ltac:(done) Ht Hp Hh).
Qed.

Lemma negative_average_is_clamped_witness :
  ∃ a0 a1,
    to_iaqi wide (py_str wide (JInt 0)) = Some a0 ∧
    to_iaqi wide (py_str wide (JFloat 2.65)) = Some a1 ∧
    aqi_g (metrics (sensor_body wide "1001" record_negative world0).2) !! lv_S = Some a0 ∧
    aqi_AQandU_g (metrics (sensor_body wide "1001" record_negative world0).2) !! lv_S = Some a1 ∧
    aqi_LRAPA_g (metrics (sensor_body wide "1001" record_negative world0).2) !! lv_S = Some a0.
Proof.
  apply (negative_average_is_clamped wide "1001"
           [("sensor_index", JInt 1001); ("name", JStr "porch");
            ("stats", JStr blob_negative)]
           blob_negative [("pm2.5_10minute", JFloat (-3.0))] (-3.0)%float world0
           (sensor_body wide "1001" record_negative world0).2).
  - vm_compute. reflexivity.
  - reflexivity.
  - discriminate.
  - reflexivity.
  - reflexivity.
  - reflexivity.
  - reflexivity.
Defined.

(** X17 -- No index survives a later failure in the same record: when the
    three indices have just been set from the average and the temperature,
    true as a condition, then fails to convert, the record fails and
    afterwards none of the three indices, nor the temperature, is exported
    for the identity. *)
Theorem failed_reading_undoes_indices (E : Env) parent d blob sd e w w1 :
  dict_get d "stats" = JStr blob →
  blob ≠ "" →
  json_loads E blob = Some (JDict sd) →
  let lv := sensor_labels E parent (dict_get d "sensor_index") (dict_get d "name") in
  truthy (dict_get sd "pm2.5_10minute") = true →
  export_pm25 E lv (dict_get sd "pm2.5_10minute") w = (Ok tt, w1) →
  truthy (dict_get d "temperature") = true →
  py_float E (dict_get d "temperature") = Raise e →
  ∃ w', sensor_body E parent (JDict d) w = (Raise e, w') ∧
        aqi_g (metrics w') !! lv = None ∧
        aqi_AQandU_g (metrics w') !! lv = None ∧
        aqi_LRAPA_g (metrics w') !! lv = None ∧
        temp_g (metrics w') !! lv = None.
Proof.
  intros Hstats Hblob Hloads lv Havg Hpm Htruthy Hfloat.
  set (w2 := (gauge_labels Temp lv w1).2).
  exists (remove_identity lv w2).2. split.
  - apply sensor_body_raises. fold lv.
    rewrite Hstats, (try_body_decoded _ _ _ _ _ _ _ _ Hblob Hloads).
    erewrite bind_Ok by reflexivity.
    erewrite bind_Ok by exact Hpm.
    apply bind_Raise. by apply export_reading_conversion_fails.
  - destruct (export_pm25_inv_Ok_any E lv _ w w1 Havg Hpm)
      as (x & f & a1 & a2 & a3 & _ & _ & _ & _ & _ & G1 & G2 & G3).
    assert (∀ m, m ∈ [Aqi; AqiAQandU; AqiLRAPA; Temp] →
                 gauge_of m (metrics (remove_identity lv w2).2) !! lv = None) as Hgone.
    { rewrite remove_identity_loop.
      apply (removals_prefix [Aqi; AqiAQandU; AqiLRAPA; Temp] [Pressure; Humidity] lv w2).
      - apply (bool_decide_unpack _). by vm_compute.
      - intros m Hm. subst w2. simpl in G1, G2, G3 |- *.
        repeat (apply elem_of_cons in Hm as [->|Hm]); simpl.
        + by rewrite G1.
        + by rewrite G2.
        + by rewrite G3.
        + destruct (temp_g (metrics w1) !! lv) eqn:Ht; first by rewrite Ht.
          by rewrite lookup_insert_eq.
        + by apply elem_of_nil in Hm. }
    repeat split.
    + apply (Hgone Aqi). set_solver.
    + apply (Hgone AqiAQandU). set_solver.
    + apply (Hgone AqiLRAPA). set_solver.
    + apply (Hgone Temp). set_solver.
Qed.

Lemma failed_reading_undoes_indices_witness :
  ∃ w', sensor_body demo "1001" record_12_text_temp world0 = (Raise ValueError, w') ∧
        aqi_g (metrics w') !! lv_S = None ∧
        aqi_AQandU_g (metrics w') !! lv_S = None ∧
        aqi_LRAPA_g (metrics w') !! lv_S = None ∧
        temp_g (metrics w') !! lv_S = None.
Proof.
  apply (failed_reading_undoes_indices demo "1001"
           [("sensor_index", JInt 1001); ("name", JStr "porch");
            ("stats", JStr blob_12); ("temperature", JStr "warm")]
           blob_12 [("pm2.5_10minute", JFloat 12.0)] ValueError world0
           (export_pm25 demo lv_S (JFloat 12.0) world0).2).
  - reflexivity.
  - discriminate.
  - reflexivity.
  - reflexivity.
  - vm_compute. reflexivity.
  - reflexivity.
  - reflexivity.
Defined.

(** ** A batch with an entry that is not an object *)

(** X18 -- An entry of the "sensor" list that is not an object stops the
    call with an attribute error raised before the [try]: nothing is removed,
    what the records before it exported stays, and the records after it are
    not processed. *)
Theorem non_object_record_aborts (E : Env) key parent priv w resp bd
    (pre post : list json) (x : json) w1 :
  requests_get E (sensor_url parent priv) key = Some resp →
  (200 ≤ status_code resp ≤ 299)%Z →
  json_body resp = Some (JDict bd) →
  dict_get bd "sensor" = JList (pre ++ x :: post) →
  (∀ d, x ≠ JDict d) →
  for_each pre (sensor_body E parent)
    (World (metrics w) (sent w ++ [(sensor_url parent priv, key)])) = (Ok tt, w1) →
  check_sensor E key parent priv w = (Raise AttributeError, w1).
Proof.
  intros Hget Hstatus Hbody Hsensor Hx Hpre.
  erewrite check_sensor_fetched by done.
  eapply for_each_break; first exact Hpre. by apply sensor_body_not_dict.
Qed.

Lemma non_object_record_aborts_witness :
  let w1 := (sensor_body wide "3007" record_S
               (World empty_registry
                  [("https://api.purpleair.com/v1/sensors/3007?read_key=PRIV", "KEY")])).2 in
  check_sensor wide "KEY" "3007" (Some "PRIV") world0 = (Raise AttributeError, w1)
  ∧ temp_g (metrics w1) !! ("3007", "1001", "porch") = Some 72.5%float.
Proof.
  intros w1. split.
  - apply (non_object_record_aborts wide "KEY" "3007" (Some "PRIV") world0
      (Response 200 (Some (JDict [("sensor", JList [record_S; JInt 5; record_other])])))
      [("sensor", JList [record_S; JInt 5; record_other])]
      [record_S] [record_other] (JInt 5) w1).
    + reflexivity.
    + simpl. lia.
    + reflexivity.
    + reflexivity.
    + discriminate.
    + vm_compute. reflexivity.
  - vm_compute. reflexivity.
Defined.
